(** * JustOneMatch backend: the two HTTPS functions

    A shallow embedding of the Cloud Functions of the repository:
    [verifyGoogleIdToken] and [verifyPurchase], in the three revisions that
    the repository holds:

    - revision A: [functions/src/index.ts] (identity handler complete,
      purchase handler a 501 placeholder);
    - revision B: the complete revision, stored after the lint
      configuration in [functions/.eslintrc.js] (identity handler with
      the [typeof] check on the token, purchase handler with the in-app
      and the subscription branch);
    - revision C: the short revision with the hard-coded audience list and
      one [try]/[catch] around each handler.

    In revisions A and B a handler is the callback that the source hands
    to the [cors] middleware.

    JavaScript values are modelled dynamically ([JsVal]), the external
    collaborators (Secret Manager, google-auth-library, firebase-admin,
    the Android Publisher client, the clock) are the fields of an
    environment record, and a handler is a computation in a small monad
    that threads the log of the calls it makes and can throw. *)

From Stdlib Require Import String Ascii List ZArith QArith Bool Lia.
From Stdlib Require Import DecimalString.
Import ListNotations.

Local Open Scope string_scope.
Local Open Scope Z_scope.

Set Warnings "-register-all".

(* ================================================================== *)
(** ** JavaScript values *)
(* ================================================================== *)

Module Js.

(** A string is a sequence of code units; the development covers the
    code units below 256.  A number [JNum n] is an integer-valued
    number. *)
Inductive JsVal : Type :=
| JUndefined
| JNull
| JBool (b : bool)
| JNum (n : Z)
| JStr (s : string)
| JArr (items : list JsVal)
| JObj (fields : list (string * JsVal)).

(** ToBoolean. *)
Definition truthy (v : JsVal) : bool :=
  match v with
  | JUndefined | JNull => false
  | JBool b => b
  | JNum n => negb (n =? 0)
  | JStr s => negb (s =? "")%string
  | JArr _ | JObj _ => true
  end.

Definition nullish (v : JsVal) : bool :=
  match v with
  | JUndefined | JNull => true
  | _ => false
  end.

(** [a && b], [a || b], [a ?? b] on already evaluated operands (the
    right operands used in the handlers have no effect of their own,
    except where the handler is written with an explicit test). *)
Definition js_and (a b : JsVal) : JsVal := if truthy a then b else a.
Definition js_or (a b : JsVal) : JsVal := if truthy a then a else b.
Definition js_coalesce (a b : JsVal) : JsVal := if nullish a then b else a.

Fixpoint assoc (k : string) (l : list (string * JsVal)) : option JsVal :=
  match l with
  | [] => None
  | (k', v) :: r => if (k' =? k)%string then Some v else assoc k r
  end.

(** Property read [v.k] on a value that is neither [undefined] nor
    [null], for a name [k] that is no built-in member: an own field of
    an object, [undefined] otherwise. *)
Definition get_prop (v : JsVal) (k : string) : JsVal :=
  match v with
  | JObj fs => match assoc k fs with Some x => x | None => JUndefined end
  | _ => JUndefined
  end.

(** [v[0]] on an array. *)
Definition first_item (v : JsVal) : JsVal :=
  match v with
  | JArr (x :: _) => x
  | _ => JUndefined
  end.

Definition is_array (v : JsVal) : bool :=
  match v with JArr _ => true | _ => false end.

Definition typeof_string (v : JsVal) : bool :=
  match v with JStr _ => true | _ => false end.

(** Strict equality with a primitive literal. *)
Definition seq_str (v : JsVal) (s : string) : bool :=
  match v with JStr t => (t =? s)%string | _ => false end.
Definition seq_num (v : JsVal) (n : Z) : bool :=
  match v with JNum m => m =? n | _ => false end.
Definition seq_bool (v : JsVal) (b : bool) : bool :=
  match v with JBool c => Bool.eqb c b | _ => false end.

Definition string_of_Z (n : Z) : string :=
  NilZero.string_of_int (Z.to_int n).

Fixpoint join (sep : string) (l : list string) : string :=
  match l with
  | [] => ""
  | [x] => x
  | x :: r => x ++ sep ++ join sep r
  end.

(** [String(v)] and the conversion of a template literal. *)
Fixpoint js_String (v : JsVal) : string :=
  match v with
  | JUndefined => "undefined"
  | JNull => "null"
  | JBool true => "true"
  | JBool false => "false"
  | JNum n => string_of_Z n
  | JStr s => s
  | JArr l =>
      join ","
        ((fix items (l : list JsVal) : list string :=
            match l with
            | [] => []
            | x :: r =>
                (match x with
                 | JUndefined | JNull => ""
                 | _ => js_String x
                 end) :: items r
            end) l)
  | JObj _ => "[object Object]"
  end.

(** *** Strings *)

(** [s.split(sep)] for a separator of one code unit. *)
Fixpoint split (sep : ascii) (s : string) : list string :=
  match s with
  | EmptyString => [EmptyString]
  | String c r =>
      if Ascii.eqb c sep then EmptyString :: split sep r
      else match split sep r with
           | [] => [String c EmptyString]
           | h :: t => String c h :: t
           end
  end.

(** White space and line terminators of [String.prototype.trim] among
    the code units below 256: TAB, LF, VT, FF, CR, SP, NBSP. *)
Definition is_ws (c : ascii) : bool :=
  let n := nat_of_ascii c in
  ((9 <=? n) && (n <=? 13) || (n =? 32) || (n =? 160))%nat.

Fixpoint trim_start (s : string) : string :=
  match s with
  | EmptyString => EmptyString
  | String c r => if is_ws c then trim_start r else s
  end.

Fixpoint trim_end (s : string) : string :=
  match s with
  | EmptyString => EmptyString
  | String c r =>
      match trim_end r with
      | EmptyString => if is_ws c then EmptyString else String c EmptyString
      | r' => String c r'
      end
  end.

Definition trim (s : string) : string := trim_end (trim_start s).

Definition nonempty (s : string) : bool := negb (s =? "")%string.

Fixpoint replace_char (a b : ascii) (s : string) : string :=
  match s with
  | EmptyString => EmptyString
  | String c r => String (if Ascii.eqb c a then b else c) (replace_char a b r)
  end.

(** [s.slice(k)] for [0 <= k]. *)
Fixpoint slice_from (k : nat) (s : string) : string :=
  match k, s with
  | O, _ => s
  | S k', String _ r => slice_from k' r
  | S _, EmptyString => EmptyString
  end.

Definition includes (l : list string) (x : string) : bool :=
  existsb (fun y => (y =? x)%string) l.

(** *** Predicates used to state what [split] and [trim] do *)

Fixpoint occurs (c : ascii) (s : string) : bool :=
  match s with
  | EmptyString => false
  | String d r => Ascii.eqb d c || occurs c r
  end.

Definition starts_with_ws (s : string) : bool :=
  match s with
  | EmptyString => false
  | String c _ => is_ws c
  end.

Fixpoint ends_with_ws (s : string) : bool :=
  match s with
  | EmptyString => false
  | String c EmptyString => is_ws c
  | String _ r => ends_with_ws r
  end.

Fixpoint all_ws (s : string) : bool :=
  match s with
  | EmptyString => true
  | String c r => is_ws c && all_ws r
  end.

(** *** Numbers obtained from strings *)

(** The result of [Number(v)]: a double is NaN, an infinity or a
    rational. *)
Inductive JsNumber : Type :=
| NaN
| PosInf
| NegInf
| Fin (q : Q).

(** [x > n] for an integer [n]. *)
Definition num_gt (x : JsNumber) (n : Z) : bool :=
  match x with
  | NaN | NegInf => false
  | PosInf => true
  | Fin q => match (inject_Z n ?= q)%Q with Lt => true | _ => false end
  end.

(** *** Thrown values *)

(** The collaborators reject with [Error] instances: a name and a
    message. *)
Record JsError : Type := mkError { err_name : string; err_message : string }.

(** [Error.prototype.toString]. *)
Definition error_String (e : JsError) : string :=
  if (err_name e =? "")%string then err_message e
  else if (err_message e =? "")%string then err_name e
  else err_name e ++ ": " ++ err_message e.

(** [err?.message || String(err)]. *)
Definition message_or_String (e : JsError) : string :=
  if nonempty (err_message e) then err_message e else error_String e.

Definition error_val (e : JsError) : JsVal :=
  JObj [("name", JStr (err_name e)); ("message", JStr (err_message e))].

Definition TypeError (msg : string) : JsError := mkError "TypeError" msg.

End Js.
Import Js.

(* ================================================================== *)
(** ** Effects: the call log and exceptions *)
(* ================================================================== *)

Module Eff.

(** What a handler does besides answering: reads of secrets, console
    output and the calls to the external services, in program order. *)
Inductive Event : Type :=
| EvSecret (name : string)
| EvLog (level : string) (args : list JsVal)
| EvVerifyIdToken (idToken : JsVal) (audience : list string)
| EvCreateCustomToken (uid : JsVal) (claims : JsVal)
| EvProductsGet (params : JsVal)
| EvProductsAcknowledge (params : JsVal)
| EvSubscriptionsGet (params : JsVal)
| EvSubscriptionsAcknowledge (params : JsVal).

Inductive Res (A : Type) : Type :=
| Val (a : A)
| Exn (e : JsError).
Arguments Val {A} a.
Arguments Exn {A} e.

Definition M (A : Type) : Type := list Event -> Res A * list Event.

Definition ret {A} (a : A) : M A := fun t => (Val a, t).

Definition bind {A B} (m : M A) (k : A -> M B) : M B :=
  fun t =>
    match m t with
    | (Val a, t') => k a t'
    | (Exn e, t') => (Exn e, t')
    end.

Definition throw {A} (e : JsError) : M A := fun t => (Exn e, t).

(** [try { m } catch (e) { h e }]. *)
Definition try_catch {A} (m : M A) (h : JsError -> M A) : M A :=
  fun t =>
    match m t with
    | (Val a, t') => (Val a, t')
    | (Exn e, t') => h e t'
    end.

Definition emit (ev : Event) : M unit := fun t => (Val tt, (t ++ [ev])%list).

(** A call to a collaborator: logged, then its outcome. *)
Definition call {A} (ev : Event) (r : Res A) : M A := fun t => (r, (t ++ [ev])%list).

Definition run {A} (m : M A) : Res A * list Event := m [].

End Eff.
Import Eff.

Declare Scope eff_scope.
Delimit Scope eff_scope with eff.
Notation "x <- m ;; k" := (bind m (fun x => k))
  (at level 100, m at next level, right associativity) : eff_scope.
Notation "m ;;; k" := (bind m (fun _ => k))
  (at level 100, right associativity) : eff_scope.
Local Open Scope eff_scope.

(* ================================================================== *)
(** ** Requests, responses and the environment *)
(* ================================================================== *)

Record Request : Type := mkRequest {
  method : string;
  body : JsVal;
  headers : list (string * JsVal)
}.

(** [req.headers[name]]. *)
Definition header (req : Request) (name : string) : JsVal :=
  match assoc name (headers req) with
  | Some v => v
  | None => JUndefined
  end.

Inductive Body : Type :=
| BJson (v : JsVal)
| BSend (s : string).

Record Response : Type := mkResponse {
  status : Z;
  res_headers : list (string * string);
  res_body : Body
}.

(** [res.status(code).json(v)]: the value as the handler passes it, before
    it is serialized. *)
Definition json (code : Z) (v : JsVal) : Response := mkResponse code [] (BJson v).

(** The collaborators of the handlers. *)
Record Env : Type := mkEnv {
  (** [defineSecret(name).value()]. *)
  secret : string -> string;
  (** [Buffer.from(s, "base64").toString("utf8")]. *)
  base64_decode : string -> string;
  (** [JSON.parse]. *)
  JSON_parse : string -> Res JsVal;
  (** [(await new OAuth2Client().verifyIdToken({idToken, audience})).getPayload()]. *)
  verifyIdToken : JsVal -> list string -> Res JsVal;
  (** [admin.auth().createCustomToken(uid, claims)]. *)
  createCustomToken : JsVal -> JsVal -> Res string;
  (** [(await androidpublisher.purchases.products.get(params)).data], for
      the client built on [auth]. *)
  products_get : JsVal -> JsVal -> Res JsVal;
  products_acknowledge : JsVal -> JsVal -> Res unit;
  subscriptions_get : JsVal -> JsVal -> Res JsVal;
  subscriptions_acknowledge : JsVal -> JsVal -> Res unit;
  (** [Number(v)]. *)
  Number : JsVal -> JsNumber;
  (** [Date.now()]. *)
  now : Z
}.

Definition secret_value (env : Env) (name : string) : M string :=
  call (EvSecret name) (Val (secret env name)).

Definition console_log (level : string) (args : list JsVal) : M unit :=
  emit (EvLog level args).

(* ================================================================== *)
(** ** The identity handler *)
(* ================================================================== *)

(** [decodeJwtPayload]: the second dot-separated segment, base64url
    turned into base64, padded, decoded and parsed; [null] on any
    failure. *)
Definition decodeJwtPayload (env : Env) (idToken : string) : JsVal :=
  match nth_error (split "." idToken) 1 with
  | None => JNull
  | Some seg =>
      if negb (nonempty seg) then JNull
      else
        let b64 := replace_char "_" "/" (replace_char "-" "+" seg) in
        let pad := b64 ++ slice_from ((String.length b64 + 3) mod 4)%nat "===" in
        match JSON_parse env (base64_decode env pad) with
        | Val v => v
        | Exn _ => JNull
        end
  end.

(** [(a || b || "").split(",").map(s => s.trim()).filter(Boolean)]. *)
Definition audiences_of (src : string) : list string :=
  filter nonempty (map trim (split "," src)).

(** The allowlist of revisions A and B.  [||] reads the second secret
    only when the first is empty. *)
Definition allowedAudiences (env : Env) : M (list string) :=
  aa <- secret_value env "GOOGLE_ALLOWED_AUDS" ;;
  src <- (if nonempty aa then ret aa
          else wc <- secret_value env "GOOGLE_WEB_CLIENT_ID" ;;
               ret (if nonempty wc then wc else "")) ;;
  ret (audiences_of src).

Definition accepted_issuer (iss : JsVal) : bool :=
  seq_str iss "accounts.google.com" || seq_str iss "https://accounts.google.com".

(** The optional custom token: [null] unless [sub] is truthy and the
    minting succeeds. *)
Definition mint (env : Env) (sub email : JsVal) : M JsVal :=
  if truthy sub then
    try_catch
      (t <- call (EvCreateCustomToken sub
                    (JObj [("email", js_or email (JStr "")); ("provider", JStr "google")]))
                 (createCustomToken env sub
                    (JObj [("email", js_or email (JStr "")); ("provider", JStr "google")])) ;;
       ret (JStr t))
      (fun e =>
         console_log "warn"
           [JStr ("Custom token create failed (optional): " ++ err_message e)] ;;;
         ret JNull)
  else ret JNull.

(** The [try] block of revisions A and B, with its [catch]. *)
Definition verify_and_answer (env : Env) (idToken : string) (allowed : list string)
  : M Response :=
  try_catch
    (payload <- call (EvVerifyIdToken (JStr idToken) allowed)
                     (verifyIdToken env (JStr idToken) allowed) ;;
     if negb (truthy payload) then
       ret (json 401 (JObj [("error", JStr "Invalid token payload")]))
     else
       let sub := get_prop payload "sub" in
       let email := get_prop payload "email" in
       let email_verified := get_prop payload "email_verified" in
       let iss := get_prop payload "iss" in
       let aud := get_prop payload "aud" in
       let name := get_prop payload "name" in
       let picture := get_prop payload "picture" in
       if negb (accepted_issuer iss) then
         ret (json 401 (JObj [("error", JStr "Invalid issuer")]))
       else if negb (includes allowed (js_String aud)) then
         ret (json 401 (JObj [("error", JStr "Invalid audience");
                              ("details", JStr ("aud=" ++ js_String aud ++ ", allowed="
                                                  ++ join "," allowed))]))
       else if truthy email && seq_bool email_verified false then
         ret (json 401 (JObj [("error", JStr "Email not verified")]))
       else
         firebaseCustomToken <- mint env sub email ;;
         ret (json 200
                (JObj [("ok", JBool true);
                       ("googleUser",
                         JObj [("uid", sub); ("email", email);
                               ("name", name); ("picture", picture)]);
                       ("firebaseCustomToken", firebaseCustomToken)])))
    (fun err =>
       ret (json 401 (JObj [("error", JStr "Invalid Google ID Token");
                            ("details", JStr (message_or_String err))]))).

Definition no_audience_configured : Response :=
  json 500
    (JObj [("error",
            JStr "No audience configured. Set GOOGLE_WEB_CLIENT_ID or GOOGLE_ALLOWED_AUDS.")]).

(** From the allowlist on: revisions A and B agree once the token is a
    string. *)
Definition with_audiences (env : Env) (idToken : string) : M Response :=
  allowed <- allowedAudiences env ;;
  if (length allowed =? 0)%nat then
    ret no_audience_configured
  else
    let raw := decodeJwtPayload env idToken in
    (if truthy raw then
       console_log "log"
         [JStr "[verifyGoogleIdToken] incoming aud/iss";
          JObj [("aud", get_prop raw "aud"); ("iss", get_prop raw "iss");
                ("azp", get_prop raw "azp")]]
     else ret tt) ;;;
    verify_and_answer env idToken allowed.

Definition preflight (allow_headers : string) : Response :=
  mkResponse 204
    [("Access-Control-Allow-Methods", "POST, OPTIONS");
     ("Access-Control-Allow-Headers", allow_headers)]
    (BSend "").

Definition method_not_allowed : Response :=
  json 405 (JObj [("error", JStr "Method Not Allowed")]).

Definition missing_idToken : Response :=
  json 400 (JObj [("error", JStr "Missing idToken")]).

(** The token of revision A:
    [(req.body && req.body.idToken) || req.headers["x-id-token"]]. *)
Definition idToken_A (req : Request) : JsVal :=
  js_or (js_and (body req) (get_prop (body req) "idToken")) (header req "x-id-token").

(** The token of revision B: [??] in place of [||], and the first item of
    a repeated header. *)
Definition idToken_B (req : Request) : JsVal :=
  let headerToken := header req "x-id-token" in
  js_coalesce (js_and (body req) (get_prop (body req) "idToken"))
    (if is_array headerToken then first_item headerToken else headerToken).

(** Revision A, [functions/src/index.ts]. *)
Definition verifyGoogleIdToken_A (env : Env) (req : Request) : M Response :=
  if (method req =? "OPTIONS")%string then ret (preflight "Content-Type, x-id-token")
  else if negb (method req =? "POST")%string then ret method_not_allowed
  else
    let idToken := idToken_A req in
    if negb (truthy idToken) then ret missing_idToken
    else with_audiences env (js_String idToken).

(** Revision B. *)
Definition verifyGoogleIdToken_B (env : Env) (req : Request) : M Response :=
  if (method req =? "OPTIONS")%string then ret (preflight "Content-Type, x-id-token")
  else if negb (method req =? "POST")%string then ret method_not_allowed
  else
    let idToken := idToken_B req in
    if negb (truthy idToken) || negb (typeof_string idToken) then ret missing_idToken
    else with_audiences env (js_String idToken).

(** Revision C: the audience list is a constant of the module. *)
Definition WEB_CLIENT_ID : string :=
  "788294993689-oqhpc6hpcj6utskqe9k45jk8illfp0i6.apps.googleusercontent.com".
Definition ANDROID_CLIENT_ID_1 : string :=
  "788294993689-5egq6j9j2dk5ahovvnjc1lsf5v0kl6q8.apps.googleusercontent.com".
Definition ANDROID_CLIENT_ID_2 : string :=
  "788294993689-dndcr4urbm4244ke9hluvulsfkmuo510.apps.googleusercontent.com".
Definition ALLOWED_AUDIENCES : list string :=
  [WEB_CLIENT_ID; ANDROID_CLIENT_ID_1; ANDROID_CLIENT_ID_2].

(** [v?.k]. *)
Definition get_prop_opt (v : JsVal) (k : string) : JsVal :=
  if nullish v then JUndefined else get_prop v k.

(** The message of an [Error] is a string, so [error?.message ?? "Server error"]
    is the message. *)
Definition verifyGoogleIdToken_C (env : Env) (req : Request) : M Response :=
  try_catch
    (let token := get_prop_opt (body req) "idToken" in
     if negb (truthy token) then
       ret (json 400 (JObj [("ok", JBool false); ("error", JStr "Missing idToken")]))
     else
       payload <- call (EvVerifyIdToken token ALLOWED_AUDIENCES)
                       (verifyIdToken env token ALLOWED_AUDIENCES) ;;
       if negb (truthy payload) then
         ret (json 401 (JObj [("ok", JBool false); ("error", JStr "Invalid token")]))
       else
         ret (json 200
                (JObj [("ok", JBool true);
                       ("userId", get_prop payload "sub");
                       ("email", get_prop payload "email");
                       ("name", get_prop payload "name");
                       ("picture", get_prop payload "picture")])))
    (fun error =>
       console_log "error" [JStr "verifyGoogleIdToken error:"; error_val error] ;;;
       ret (json 500 (JObj [("ok", JBool false); ("error", JStr (err_message error))]))).

(* ================================================================== *)
(** ** The purchase handler *)
(* ================================================================== *)

Definition of_res {A} (r : Res A) : M A := fun t => (r, t).

(** The [TypeError] of a property read on [undefined] or [null]. *)
Definition read_error (v : JsVal) (k : string) : JsError :=
  TypeError ("Cannot read properties of " ++ js_String v ++ " (reading '" ++ k ++ "')").

Definition publisher_scopes : JsVal :=
  JArr [JStr "https://www.googleapis.com/auth/androidpublisher"].

(** [new google.auth.JWT({email: creds.client_email, key: creds.private_key, scopes})]. *)
Definition auth_of (creds : JsVal) : JsVal :=
  JObj [("email", get_prop creds "client_email");
        ("key", get_prop creds "private_key");
        ("scopes", publisher_scopes)].

(** [getAuthFromServiceAccountJson]: parses the secret and builds the JWT
    client options from it. *)
Definition getAuthFromServiceAccountJson (env : Env) (jsonStr : string) : M JsVal :=
  creds <- of_res (JSON_parse env jsonStr) ;;
  if nullish creds then throw (read_error creds "client_email")
  else ret (auth_of creds).

Definition missing_fields : Response :=
  json 400 (JObj [("error", JStr "Missing fields");
                  ("required",
                    JStr "packageName, purchaseToken, and (productId or subscriptionId)")]).

(** The in-app branch of revision B. *)
Definition inapp_branch (env : Env) (auth packageName productId purchaseToken
                                      acknowledge developerPayload : JsVal)
  : M Response :=
  data <- call (EvProductsGet
                  (JObj [("packageName", packageName); ("productId", productId);
                         ("token", purchaseToken)]))
               (products_get env auth
                  (JObj [("packageName", packageName); ("productId", productId);
                         ("token", purchaseToken)])) ;;
  if nullish data then
    throw (read_error data (if truthy developerPayload
                            then "obfuscatedExternalAccountId"
                            else "acknowledgementState"))
  else
    let acknowledged := seq_num (get_prop data "acknowledgementState") 1 in
    let purchased := seq_num (get_prop data "purchaseState") 0 in
    (if truthy acknowledge && purchased && negb acknowledged then
       let params :=
         JObj [("packageName", packageName); ("productId", productId);
               ("token", purchaseToken);
               ("requestBody",
                 JObj [("developerPayload", js_coalesce developerPayload (JStr ""))])] in
       try_catch
         (call (EvProductsAcknowledge params) (products_acknowledge env auth params))
         (fun ackErr =>
            console_log "warn"
              [JStr "acknowledge error:"; JStr (message_or_String ackErr)])
     else ret tt) ;;;
    ret (json 200
           (JObj [("ok", JBool purchased);
                  ("type", JStr "inapp");
                  ("productId", productId);
                  ("orderId", get_prop data "orderId");
                  ("purchaseState", get_prop data "purchaseState");
                  ("acknowledgementState", get_prop data "acknowledgementState");
                  ("consumptionState", get_prop data "consumptionState");
                  ("purchaseTimeMillis", get_prop data "purchaseTimeMillis");
                  ("kind", get_prop data "kind")])).

(** [!!data.expiryTimeMillis && Number(data.expiryTimeMillis) > Date.now()]. *)
Definition active_at (env : Env) (data : JsVal) : bool :=
  truthy (get_prop data "expiryTimeMillis")
  && num_gt (Number env (get_prop data "expiryTimeMillis")) (now env).

(** The subscription branch of revision B. *)
Definition subs_branch (env : Env) (auth packageName subscriptionId purchaseToken
                                     acknowledge developerPayload : JsVal)
  : M Response :=
  let subId := JStr (js_String subscriptionId) in
  data <- call (EvSubscriptionsGet
                  (JObj [("packageName", packageName); ("subscriptionId", subId);
                         ("token", purchaseToken)]))
               (subscriptions_get env auth
                  (JObj [("packageName", packageName); ("subscriptionId", subId);
                         ("token", purchaseToken)])) ;;
  if nullish data then throw (read_error data "acknowledgementState")
  else
    let acknowledged := seq_num (get_prop data "acknowledgementState") 1 in
    let active := active_at env data in
    (if truthy acknowledge && negb acknowledged then
       let params :=
         JObj [("packageName", packageName); ("subscriptionId", subId);
               ("token", purchaseToken);
               ("requestBody",
                 JObj [("developerPayload", js_coalesce developerPayload (JStr ""))])] in
       try_catch
         (call (EvSubscriptionsAcknowledge params)
               (subscriptions_acknowledge env auth params))
         (fun ackErr =>
            console_log "warn"
              [JStr "subscription acknowledge error:"; JStr (message_or_String ackErr)])
     else ret tt) ;;;
    ret (json 200
           (JObj [("ok", JBool active);
                  ("type", JStr "subs");
                  ("subscriptionId", subId);
                  ("orderId", get_prop data "orderId");
                  ("expiryTimeMillis", get_prop data "expiryTimeMillis");
                  ("autoRenewing", get_prop data "autoRenewing");
                  ("paymentState", get_prop data "paymentState");
                  ("cancelReason", get_prop data "cancelReason");
                  ("acknowledgementState", get_prop data "acknowledgementState")])).

(** A field of [body || {}], the destructured request body. *)
Definition purchase_field (req : Request) (k : string) : JsVal :=
  get_prop (js_or (body req) (JObj [])) k.

(** Revision B. *)
Definition verifyPurchase_B (env : Env) (req : Request) : M Response :=
  if (method req =? "OPTIONS")%string then ret (preflight "Content-Type")
  else if negb (method req =? "POST")%string then ret method_not_allowed
  else
    let packageName := purchase_field req "packageName" in
    let productId := purchase_field req "productId" in
    let subscriptionId := purchase_field req "subscriptionId" in
    let purchaseToken := purchase_field req "purchaseToken" in
    let acknowledge := purchase_field req "acknowledge" in
    let developerPayload := purchase_field req "developerPayload" in
    if negb (truthy packageName) || negb (truthy purchaseToken)
       || (negb (truthy productId) && negb (truthy subscriptionId))
    then ret missing_fields
    else
      svcJson <- secret_value env "GP_SERVICE_ACCOUNT_JSON" ;;
      if negb (nonempty svcJson) then
        ret (json 500 (JObj [("error", JStr "Missing GP_SERVICE_ACCOUNT_JSON secret")]))
      else
        try_catch
          (auth <- getAuthFromServiceAccountJson env svcJson ;;
           if truthy productId then
             inapp_branch env auth packageName productId purchaseToken
               acknowledge developerPayload
           else
             subs_branch env auth packageName subscriptionId purchaseToken
               acknowledge developerPayload)
          (fun e =>
             console_log "error" [JStr "verifyPurchase error:"; JStr (message_or_String e)] ;;;
             ret (json 500 (JObj [("error", JStr "verifyPurchase failed");
                                  ("details", JStr (message_or_String e))]))).

(** Revision A: the placeholder. *)
Definition verifyPurchase_A (env : Env) (req : Request) : M Response :=
  ret (json 501 (JObj [("error", JStr "keep your existing verifyPurchase code here")])).

(** Revision C: in-app products only, no acknowledgement. *)
Definition verifyPurchase_C (env : Env) (req : Request) : M Response :=
  try_catch
    (let b := js_coalesce (body req) (JObj []) in
     let packageName := get_prop b "packageName" in
     let productId := get_prop b "productId" in
     let purchaseToken := get_prop b "purchaseToken" in
     if negb (truthy packageName) || negb (truthy productId) || negb (truthy purchaseToken)
     then ret (json 400 (JObj [("error", JStr "Missing parameters")]))
     else
       svcJson <- secret_value env "GP_SERVICE_ACCOUNT_JSON" ;;
       if negb (nonempty svcJson) then
         ret (json 500 (JObj [("error", JStr "Missing GP_SERVICE_ACCOUNT_JSON")]))
       else
         serviceAccount <- of_res (JSON_parse env svcJson) ;;
         let auth := JObj [("credentials", serviceAccount); ("scopes", publisher_scopes)] in
         let params := JObj [("packageName", packageName); ("productId", productId);
                             ("token", purchaseToken)] in
         data <- call (EvProductsGet params) (products_get env auth params) ;;
         ret (json 200 (JObj [("status", JStr "ok"); ("purchase", data)])))
    (fun error =>
       console_log "error" [JStr "verifyPurchase error:"; error_val error] ;;;
       ret (json 500 (JObj [("error", JStr "Server error");
                            ("details", JStr (err_message error))]))).

(** ** Observations on a run *)

Definition response_of (out : Res Response * list Event) : option Response :=
  match fst out with
  | Val r => Some r
  | Exn _ => None
  end.

Definition trace_of (out : Res Response * list Event) : list Event := snd out.

(** A field of a JSON answer. *)
Definition answer_field (r : Response) (k : string) : option JsVal :=
  match res_body r with
  | BJson (JObj fs) => assoc k fs
  | _ => None
  end.

Definition is_verifier_call (ev : Event) : bool :=
  match ev with EvVerifyIdToken _ _ => true | _ => false end.
Definition is_products_ack (ev : Event) : bool :=
  match ev with EvProductsAcknowledge _ => true | _ => false end.
Definition is_subs_ack (ev : Event) : bool :=
  match ev with EvSubscriptionsAcknowledge _ => true | _ => false end.

Definition count (p : Event -> bool) (t : list Event) : nat := length (filter p t).

(* ================================================================== *)
(** ** Specification-side definitions *)
(* ================================================================== *)

(** The allowlist that [allowedAudiences] computes, as a function of the
    two secrets. *)
Definition resolved_allowlist (env : Env) : list string :=
  let aa := secret env "GOOGLE_ALLOWED_AUDS" in
  let wc := secret env "GOOGLE_WEB_CLIENT_ID" in
  audiences_of (if nonempty aa then aa else if nonempty wc then wc else "").

(** The secrets that [allowedAudiences] reads. *)
Definition allowlist_reads (env : Env) : list Event :=
  if nonempty (secret env "GOOGLE_ALLOWED_AUDS")
  then [EvSecret "GOOGLE_ALLOWED_AUDS"]
  else [EvSecret "GOOGLE_ALLOWED_AUDS"; EvSecret "GOOGLE_WEB_CLIENT_ID"].

(** The allowlist in the words of the specification: the configuration
    sources in priority order, the first non-empty one wins; the value is
    split at commas, each entry trimmed, empty entries dropped. *)
Definition first_nonempty (sources : list string) : string :=
  match find nonempty sources with
  | Some s => s
  | None => ""
  end.

Definition comma_split (s : string) : list string := split "," s.

Definition drop_empties (l : list string) : list string :=
  filter (fun s => negb (String.length s =? 0)%nat) l.

Definition allowlist_spec (multi legacy : string) : list string :=
  drop_empties (map trim (comma_split (first_nonempty [multi; legacy]))).

(** The answer that carries a verified identity. *)
Definition verified_success (r : Response) : Prop :=
  status r = 200
  /\ answer_field r "ok" = Some (JBool true)
  /\ answer_field r "googleUser" <> None.

(** What the verifier returned for [tok] under the resolved allowlist
    passes the issuer test, the audience test and the test [email_ok] on
    the claims [email] and [email_verified]. *)
Definition identity_guard (env : Env) (tok : string)
           (email_ok : JsVal -> JsVal -> Prop) : Prop :=
  exists payload,
    verifyIdToken env (JStr tok) (resolved_allowlist env) = Val payload
    /\ accepted_issuer (get_prop payload "iss") = true
    /\ includes (resolved_allowlist env) (js_String (get_prop payload "aud")) = true
    /\ email_ok (get_prop payload "email") (get_prop payload "email_verified").

(** The email condition as the specification words it. *)
Definition email_absent_or_verified (email email_verified : JsVal) : Prop :=
  email = JUndefined \/ email_verified = JBool true.

(** The email condition of the code: [!(email && email_verified === false)]. *)
Definition email_not_refused (email email_verified : JsVal) : Prop :=
  truthy email = false \/ email_verified <> JBool false.

(** The request reaches the billing client of revision B: a POST with
    package name and purchase token, and a service account that parses
    to [creds]. *)
Definition reaches_billing (env : Env) (req : Request) (creds : JsVal) : Prop :=
  method req = "POST"
  /\ truthy (purchase_field req "packageName") = true
  /\ truthy (purchase_field req "purchaseToken") = true
  /\ nonempty (secret env "GP_SERVICE_ACCOUNT_JSON") = true
  /\ JSON_parse env (secret env "GP_SERVICE_ACCOUNT_JSON") = Val creds
  /\ nullish creds = false.

Definition products_params (req : Request) : JsVal :=
  JObj [("packageName", purchase_field req "packageName");
        ("productId", purchase_field req "productId");
        ("token", purchase_field req "purchaseToken")].

Definition subscriptions_params (req : Request) : JsVal :=
  JObj [("packageName", purchase_field req "packageName");
        ("subscriptionId", JStr (js_String (purchase_field req "subscriptionId")));
        ("token", purchase_field req "purchaseToken")].

(** The in-app branch fetched [data]. *)
Definition inapp_fetched (env : Env) (req : Request) (creds data : JsVal) : Prop :=
  reaches_billing env req creds
  /\ truthy (purchase_field req "productId") = true
  /\ products_get env (auth_of creds) (products_params req) = Val data
  /\ nullish data = false.

(** The subscription branch fetched [data]. *)
Definition subs_fetched (env : Env) (req : Request) (creds data : JsVal) : Prop :=
  reaches_billing env req creds
  /\ truthy (purchase_field req "productId") = false
  /\ truthy (purchase_field req "subscriptionId") = true
  /\ subscriptions_get env (auth_of creds) (subscriptions_params req) = Val data
  /\ nullish data = false.

(** The guard of the subscription acknowledgement in the code. *)
Definition subs_ack_guard (req : Request) (data : JsVal) : bool :=
  truthy (purchase_field req "acknowledge")
  && negb (seq_num (get_prop data "acknowledgementState") 1).

(** The guard of the in-app acknowledgement in the code. *)
Definition inapp_ack_guard (req : Request) (data : JsVal) : bool :=
  truthy (purchase_field req "acknowledge")
  && seq_num (get_prop data "purchaseState") 0
  && negb (seq_num (get_prop data "acknowledgementState") 1).

(** The acknowledge request of the subscription branch. *)
Definition subs_ack_params (req : Request) : JsVal :=
  JObj [("packageName", purchase_field req "packageName");
        ("subscriptionId", JStr (js_String (purchase_field req "subscriptionId")));
        ("token", purchase_field req "purchaseToken");
        ("requestBody",
          JObj [("developerPayload",
                  js_coalesce (purchase_field req "developerPayload") (JStr ""))])].

(** The answer of the [try] block on a verified identity. *)
Definition identity_answer (payload token : JsVal) : Response :=
  json 200
    (JObj [("ok", JBool true);
           ("googleUser",
             JObj [("uid", get_prop payload "sub"); ("email", get_prop payload "email");
                   ("name", get_prop payload "name");
                   ("picture", get_prop payload "picture")]);
           ("firebaseCustomToken", token)]).

(** The tests of the [try] block, in the order of the code. *)
Definition passes (allowed : list string) (payload : JsVal) : bool :=
  truthy payload
  && accepted_issuer (get_prop payload "iss")
  && includes allowed (js_String (get_prop payload "aud"))
  && negb (truthy (get_prop payload "email")
           && seq_bool (get_prop payload "email_verified") false).

Definition is_subs_call (ev : Event) : bool :=
  match ev with
  | EvSubscriptionsGet _ | EvSubscriptionsAcknowledge _ => true
  | _ => false
  end.

Definition inapp_ack_params (req : Request) : JsVal :=
  JObj [("packageName", purchase_field req "packageName");
        ("productId", purchase_field req "productId");
        ("token", purchase_field req "purchaseToken");
        ("requestBody",
          JObj [("developerPayload",
                  js_coalesce (purchase_field req "developerPayload") (JStr ""))])].

Definition inapp_answer (req : Request) (data : JsVal) : Response :=
  json 200
    (JObj [("ok", JBool (seq_num (get_prop data "purchaseState") 0));
           ("type", JStr "inapp");
           ("productId", purchase_field req "productId");
           ("orderId", get_prop data "orderId");
           ("purchaseState", get_prop data "purchaseState");
           ("acknowledgementState", get_prop data "acknowledgementState");
           ("consumptionState", get_prop data "consumptionState");
           ("purchaseTimeMillis", get_prop data "purchaseTimeMillis");
           ("kind", get_prop data "kind")]).

Definition subs_answer (env : Env) (req : Request) (data : JsVal) : Response :=
  json 200
    (JObj [("ok", JBool (active_at env data));
           ("type", JStr "subs");
           ("subscriptionId", JStr (js_String (purchase_field req "subscriptionId")));
           ("orderId", get_prop data "orderId");
           ("expiryTimeMillis", get_prop data "expiryTimeMillis");
           ("autoRenewing", get_prop data "autoRenewing");
           ("paymentState", get_prop data "paymentState");
           ("cancelReason", get_prop data "cancelReason");
           ("acknowledgementState", get_prop data "acknowledgementState")]).

(** What a swallowed failure of an acknowledge call leaves in the log. *)
Definition ack_warning (label : string) (r : Res unit) : list Event :=
  match r with
  | Val _ => []
  | Exn e => [EvLog "warn" [JStr label; JStr (message_or_String e)]]
  end.

(** The log of a run that fetched [data] on the in-app branch. *)
Definition inapp_trace (env : Env) (req : Request) (creds data : JsVal) : list Event :=
  [EvSecret "GP_SERVICE_ACCOUNT_JSON"; EvProductsGet (products_params req)]
  ++ (if inapp_ack_guard req data
      then EvProductsAcknowledge (inapp_ack_params req)
           :: ack_warning "acknowledge error:"
                (products_acknowledge env (auth_of creds) (inapp_ack_params req))
      else []).

(** The log of a run that fetched [data] on the subscription branch. *)
Definition subs_trace (env : Env) (req : Request) (creds data : JsVal) : list Event :=
  [EvSecret "GP_SERVICE_ACCOUNT_JSON"; EvSubscriptionsGet (subscriptions_params req)]
  ++ (if subs_ack_guard req data
      then EvSubscriptionsAcknowledge (subs_ack_params req)
           :: ack_warning "subscription acknowledge error:"
                (subscriptions_acknowledge env (auth_of creds) (subs_ack_params req))
      else []).

(* ================================================================== *)
(** ** Sample environments and requests *)
(* ================================================================== *)

Module Demo.

Definition digit_of (c : ascii) : option Z :=
  let n := nat_of_ascii c in
  if ((48 <=? n) && (n <=? 57))%nat then Some (Z.of_nat (n - 48)) else None.

Fixpoint digits_value (acc : Z) (s : string) : option Z :=
  match s with
  | EmptyString => Some acc
  | String c r =>
      match digit_of c with
      | Some d => digits_value (10 * acc + d) r
      | None => None
      end
  end.

(** [Number] on the values the examples use: integers and strings of
    decimal digits. *)
Definition Number_of_decimal (v : JsVal) : JsNumber :=
  match v with
  | JNum n => Fin (inject_Z n)
  | JStr s =>
      match digits_value 0 s with
      | Some n => Fin (inject_Z n)
      | None => NaN
      end
  | _ => NaN
  end.

Definition service_account : JsVal :=
  JObj [("client_email", JStr "billing@project.iam.gserviceaccount.com");
        ("private_key", JStr "key-material")].

Definition secrets (auds : string) (name : string) : string :=
  if (name =? "GOOGLE_ALLOWED_AUDS")%string then auds
  else if (name =? "GP_SERVICE_ACCOUNT_JSON")%string then "service-account-json"
  else "".

(** An environment whose collaborators answer with the given outcomes;
    the acknowledge calls succeed. *)
Definition env_with (auds : string) (verified : Res JsVal) (minted : Res string)
           (product subscription : Res JsVal) (clock : Z) : Env :=
  {| secret := secrets auds;
     base64_decode := fun s => s;
     JSON_parse := fun s =>
       if (s =? "service-account-json")%string then Val service_account
       else Exn (mkError "SyntaxError" "Unexpected token");
     verifyIdToken := fun _ _ => verified;
     createCustomToken := fun _ _ => minted;
     products_get := fun _ _ => product;
     products_acknowledge := fun _ _ => Val tt;
     subscriptions_get := fun _ _ => subscription;
     subscriptions_acknowledge := fun _ _ => Val tt;
     Number := Number_of_decimal;
     now := clock |}.

Definition post (b : JsVal) : Request := mkRequest "POST" b [].

Definition token_request : Request := post (JObj [("idToken", JStr "tok")]).

(** The claims of the scenario of the specification: audience client-A,
    Google issuer, no email. *)
Definition payload_no_email : JsVal :=
  JObj [("sub", JStr "subject-1");
        ("iss", JStr "https://accounts.google.com");
        ("aud", JStr "client-A")].

(** An email claim without the [email_verified] claim. *)
Definition payload_email_unflagged : JsVal :=
  JObj [("sub", JStr "subject-1");
        ("email", JStr "player@example.com");
        ("iss", JStr "https://accounts.google.com");
        ("aud", JStr "client-A")].

Definition rejected : JsError := mkError "Error" "Wrong number of segments in token: tok".

Definition mint_failure : JsError := mkError "FirebaseAuthError" "insufficient permission".

Definition identity_env (verified : Res JsVal) (minted : Res string) : Env :=
  env_with "client-A, client-B" verified minted
    (Exn (mkError "Error" "unused")) (Exn (mkError "Error" "unused")) 1700000000000.

Definition billing_env (product subscription : Res JsVal) : Env :=
  env_with "" (Exn rejected) (Exn mint_failure) product subscription 1700000000000.

(** Purchase queries. *)
Definition inapp_request (acknowledge : bool) : Request :=
  post (JObj [("packageName", JStr "com.x.y"); ("productId", JStr "p1");
              ("purchaseToken", JStr "t1"); ("acknowledge", JBool acknowledge)]).

Definition subs_request (acknowledge : bool) : Request :=
  post (JObj [("packageName", JStr "com.x.y"); ("subscriptionId", JStr "s1");
              ("purchaseToken", JStr "t1"); ("acknowledge", JBool acknowledge)]).

Definition both_request : Request :=
  post (JObj [("packageName", JStr "com.x.y"); ("productId", JStr "p1");
              ("subscriptionId", JStr "s1"); ("purchaseToken", JStr "t1")]).

Definition neither_request : Request :=
  post (JObj [("packageName", JStr "com.x.y"); ("purchaseToken", JStr "t1")]).

Definition product_data (purchaseState acknowledgementState : Z) : JsVal :=
  JObj [("orderId", JStr "GPA.1"); ("purchaseState", JNum purchaseState);
        ("acknowledgementState", JNum acknowledgementState);
        ("consumptionState", JNum 0); ("purchaseTimeMillis", JStr "1690000000000")].

Definition subscription_data (expiry : string) (autoRenewing : bool)
           (acknowledgementState : Z) : JsVal :=
  JObj [("orderId", JStr "GPA.2"); ("expiryTimeMillis", JStr expiry);
        ("autoRenewing", JBool autoRenewing); ("paymentState", JNum 1);
        ("acknowledgementState", JNum acknowledgementState)].

End Demo.

(* ================================================================== *)
(** ** Further observations on a run *)
(* ================================================================== *)

Definition is_mint_call (ev : Event) : bool :=
  match ev with EvCreateCustomToken _ _ => true | _ => false end.


Definition is_fetch (ev : Event) : bool :=
  match ev with
  | EvProductsGet _ | EvSubscriptionsGet _ => true
  | _ => false
  end.

Definition is_ack (ev : Event) : bool :=
  match ev with
  | EvProductsAcknowledge _ | EvSubscriptionsAcknowledge _ => true
  | _ => false
  end.

Definition is_billing_call (ev : Event) : bool := is_fetch ev || is_ack ev.

(** The debugging line of revisions A and B: what the unverified decoding
    of the token leaves in the log. *)
Definition debug_log (env : Env) (tok : string) : list Event :=
  let raw := decodeJwtPayload env tok in
  if truthy raw then
    [EvLog "log"
       [JStr "[verifyGoogleIdToken] incoming aud/iss";
        JObj [("aud", get_prop raw "aud"); ("iss", get_prop raw "iss");
              ("azp", get_prop raw "azp")]]]
  else [].

(** The log of revisions A and B before the verifier is called. *)
Definition identity_prefix (env : Env) (tok : string) : list Event :=
  (allowlist_reads env ++ debug_log env tok)%list.

(** The environment with another base64 decoder and another JSON
    parser. *)
Definition with_decoder (env : Env) (b64 : string -> string)
           (parse : string -> Res JsVal) : Env :=
  {| secret := secret env;
     base64_decode := b64;
     JSON_parse := parse;
     verifyIdToken := verifyIdToken env;
     createCustomToken := createCustomToken env;
     products_get := products_get env;
     products_acknowledge := products_acknowledge env;
     subscriptions_get := subscriptions_get env;
     subscriptions_acknowledge := subscriptions_acknowledge env;
     Number := Number env;
     now := now env |}.

(** The base64 text that [decodeJwtPayload] builds from a segment:
    base64url characters replaced, then padded. *)
Definition jwt_base64 (seg : string) : string :=
  let b64 := replace_char "_" "/" (replace_char "-" "+" seg) in
  b64 ++ slice_from ((String.length b64 + 3) mod 4)%nat "===".

(** The claims object handed to [createCustomToken]. *)
Definition mint_claims (payload : JsVal) : JsVal :=
  JObj [("email", js_or (get_prop payload "email") (JStr "")); ("provider", JStr "google")].

Definition answers_401 (error : string) : Response :=
  json 401 (JObj [("error", JStr error)]).

Definition invalid_audience (aud : JsVal) (allowed : list string) : Response :=
  json 401 (JObj [("error", JStr "Invalid audience");
                  ("details", JStr ("aud=" ++ js_String aud ++ ", allowed="
                                      ++ join "," allowed))]).

(** The answer of revision B to a failure inside its [try] block. *)
Definition purchase_failed (e : JsError) : Response :=
  json 500 (JObj [("error", JStr "verifyPurchase failed");
                  ("details", JStr (message_or_String e))]).

Definition purchase_failed_log (e : JsError) : Event :=
  EvLog "error" [JStr "verifyPurchase error:"; JStr (message_or_String e)].

Definition missing_secret : Response :=
  json 500 (JObj [("error", JStr "Missing GP_SERVICE_ACCOUNT_JSON secret")]).

(** The token that revision A takes from a request, when it takes one. *)
Definition takes_token_A (req : Request) (tok : string) : Prop :=
  truthy (idToken_A req) = true /\ tok = js_String (idToken_A req).

(** The token that revision B takes from a request: a non-empty string. *)
Definition takes_token_B (req : Request) (tok : string) : Prop :=
  truthy (idToken_B req) = true /\ typeof_string (idToken_B req) = true
  /\ tok = js_String (idToken_B req).

(** The calls of one run of an identity handler: the verifier at most
    once and only with the resolved allowlist as audience, the minting
    service at most once and only in a run that answers with a verified
    identity. *)
Definition disciplined (env : Env) (out : Res Response * list Event) : Prop :=
  (count is_verifier_call (trace_of out) <= 1)%nat
  /\ (count is_mint_call (trace_of out) <= 1)%nat
  /\ (forall t a, In (EvVerifyIdToken t a) (trace_of out) -> a = resolved_allowlist env)
  /\ (count is_mint_call (trace_of out) = 1%nat ->
      exists r, response_of out = Some r /\ verified_success r).

(** An allowlist entry as the comparison with the audience needs it:
    not empty, no white space at either end, no comma inside. *)
Definition clean_entry (a : string) : bool :=
  nonempty a && negb (starts_with_ws a) && negb (ends_with_ws a) && negb (occurs "," a).



(** A field of [req.body ?? {}], the destructured body of revision C. *)
Definition short_field (req : Request) (k : string) : JsVal :=
  get_prop (js_coalesce (body req) (JObj [])) k.

Definition short_params (req : Request) : JsVal :=
  JObj [("packageName", short_field req "packageName");
        ("productId", short_field req "productId");
        ("token", short_field req "purchaseToken")].

(** [new google.auth.GoogleAuth({credentials, scopes})]. *)
Definition short_auth (serviceAccount : JsVal) : JsVal :=
  JObj [("credentials", serviceAccount); ("scopes", publisher_scopes)].

Definition short_identity_answer (payload : JsVal) : Response :=
  json 200
    (JObj [("ok", JBool true);
           ("userId", get_prop payload "sub");
           ("email", get_prop payload "email");
           ("name", get_prop payload "name");
           ("picture", get_prop payload "picture")]).

(** More samples. *)
Module Sample.

Definition payload_with (iss aud : string) (email email_verified : JsVal) : JsVal :=
  JObj [("sub", JStr "subject-1"); ("email", email);
        ("email_verified", email_verified);
        ("iss", JStr iss); ("aud", JStr aud)].

Definition wrong_issuer : JsVal :=
  payload_with "https://evil.example" "client-A" JUndefined JUndefined.

Definition wrong_audience : JsVal :=
  payload_with "accounts.google.com" "client-Z" JUndefined JUndefined.

Definition unverified_email : JsVal :=
  payload_with "accounts.google.com" "client-B" (JStr "player@example.com") (JBool false).

Definition verified_email : JsVal :=
  payload_with "accounts.google.com" "client-B" (JStr "player@example.com") (JBool true).

Definition no_subject : JsVal :=
  JObj [("iss", JStr "accounts.google.com"); ("aud", JStr "client-A")].

Definition env_of (verified : Res JsVal) : Env :=
  Demo.identity_env verified (Val "custom-token").

(** A token in the header only. *)
Definition header_request : Request :=
  mkRequest "POST" (JObj []) [("x-id-token", JStr "tok")].

(** An empty token in the body, a token in the header. *)
Definition empty_body_token_request : Request :=
  mkRequest "POST" (JObj [("idToken", JStr "")]) [("x-id-token", JStr "tok")].

(** A number in place of the token. *)
Definition numeric_token_request : Request :=
  Demo.post (JObj [("idToken", JNum 42)]).

(** The multi-value secret holds separators only; the single client id is
    configured. *)
Definition shadowed_env : Env :=
  {| secret := fun name =>
       if (name =? "GOOGLE_ALLOWED_AUDS")%string then " , "
       else if (name =? "GOOGLE_WEB_CLIENT_ID")%string then "client-A"
       else "";
     base64_decode := fun s => s;
     JSON_parse := fun _ => Exn (mkError "SyntaxError" "Unexpected token");
     verifyIdToken := fun _ _ => Val Demo.payload_no_email;
     createCustomToken := fun _ _ => Val "custom-token";
     products_get := fun _ _ => Exn Demo.rejected;
     products_acknowledge := fun _ _ => Val tt;
     subscriptions_get := fun _ _ => Exn Demo.rejected;
     subscriptions_acknowledge := fun _ _ => Val tt;
     Number := Demo.Number_of_decimal;
     now := 0 |}.

(** A billing environment with the given secret, the given outcome of its
    parsing, of the two fetches and of the two acknowledge calls. *)
Definition billing_with (gp : string) (parsed : Res JsVal)
           (product subscription : Res JsVal) (acked : Res unit) : Env :=
  {| secret := fun name =>
       if (name =? "GP_SERVICE_ACCOUNT_JSON")%string then gp else "";
     base64_decode := fun s => s;
     JSON_parse := fun _ => parsed;
     verifyIdToken := fun _ _ => Exn Demo.rejected;
     createCustomToken := fun _ _ => Exn Demo.mint_failure;
     products_get := fun _ _ => product;
     products_acknowledge := fun _ _ => acked;
     subscriptions_get := fun _ _ => subscription;
     subscriptions_acknowledge := fun _ _ => acked;
     Number := Demo.Number_of_decimal;
     now := 1700000000000 |}.

Definition syntax_error : JsError :=
  mkError "SyntaxError" "Unexpected token o in JSON at position 1".

Definition backend_error : JsError :=
  mkError "GaxiosError" "The purchase token was not found.".

Definition already_acknowledged : JsError :=
  mkError "GaxiosError" "The purchase is already acknowledged.".

(** The query with both ids, without the subscription id. *)
Definition product_only_request : Request :=
  Demo.post (JObj [("packageName", JStr "com.x.y"); ("productId", JStr "p1");
                   ("purchaseToken", JStr "t1")]).

End Sample.

(* ================================================================== *)
(** ** Strings: the built-ins behave as their names say *)
(* ================================================================== *)

Section StringFacts.

Lemma nonempty_length (s : string) :
  nonempty s = negb (String.length s =? 0)%nat.
Proof. destruct s; reflexivity. Qed.

Lemma nonempty_true_iff (s : string) : nonempty s = true <-> s <> "".
Proof.
  unfold nonempty. destruct (String.eqb_spec s ""); simpl; split; congruence.
Qed.

Lemma split_not_nil (sep : ascii) (s : string) : split sep s <> [].
Proof.
  induction s as [| c r IH]; simpl; [discriminate |].
  destruct (Ascii.eqb c sep); [discriminate |].
  destruct (split sep r); [contradiction | discriminate].
Qed.

(** Joining the pieces with the separator gives the string back. *)
Lemma join_split (sep : ascii) (s : string) :
  join (String sep "") (split sep s) = s.
Proof.
  induction s as [| c r IH]; [reflexivity |].
  simpl split. destruct (Ascii.eqb_spec c sep) as [-> | Hne].
  - pose proof (split_not_nil sep r) as Hnn.
    destruct (split sep r) as [| h t] eqn:E; [contradiction |].
    change (join (String sep "") ("" :: h :: t))
      with (String sep (join (String sep "") (h :: t))).
    now rewrite IH.
  - pose proof (split_not_nil sep r) as Hnn.
    destruct (split sep r) as [| h t] eqn:E; [contradiction |].
    destruct t as [| h' t'].
    + simpl in *. now rewrite IH.
    + change (join (String sep "") (String c h :: h' :: t'))
        with (String c (join (String sep "") (h :: h' :: t'))).
      now rewrite IH.
Qed.

(** No piece holds the separator. *)
Lemma split_pieces_free (sep : ascii) (s : string) :
  Forall (fun p => occurs sep p = false) (split sep s).
Proof.
  induction s as [| c r IH]; simpl.
  - constructor; [reflexivity | constructor].
  - destruct (Ascii.eqb c sep) eqn:E.
    + constructor; [reflexivity | exact IH].
    + destruct (split sep r) as [| h t]; [repeat constructor; simpl; now rewrite E |].
      inversion IH; subst. constructor; [simpl; now rewrite E | assumption].
Qed.

Lemma trim_start_decompose (s : string) :
  exists l, s = l ++ trim_start s /\ all_ws l = true
            /\ starts_with_ws (trim_start s) = false.
Proof.
  induction s as [| c r (l & Hl & Hw & Hs)]; simpl.
  - exists "". auto.
  - destruct (is_ws c) eqn:E.
    + exists (String c l). simpl. rewrite E, Hw. split; [now rewrite <- Hl | auto].
    + exists "". simpl. auto.
Qed.

Lemma trim_end_decompose (s : string) :
  exists r, s = trim_end s ++ r /\ all_ws r = true
            /\ ends_with_ws (trim_end s) = false.
Proof.
  induction s as [| c s (r & Hr & Hw & He)]; simpl.
  - exists "". auto.
  - destruct (trim_end s) as [| d u] eqn:E.
    + destruct (is_ws c) eqn:Ec.
      * exists (String c s). simpl in Hr. subst r. simpl. rewrite Ec, Hw. auto.
      * exists s. simpl in Hr. subst r. simpl. rewrite Ec. auto.
    + exists r. simpl. split; [now rewrite Hr | auto].
Qed.

Lemma trim_end_keeps_start (s : string) :
  starts_with_ws s = false -> starts_with_ws (trim_end s) = false.
Proof.
  destruct s as [| c r]; simpl; [auto |].
  intros Hc. destruct (trim_end r); [rewrite Hc |]; simpl; auto.
Qed.

(** [trim] removes a run of white space at each end and nothing else. *)
Lemma trim_decompose (s : string) :
  exists l r, s = l ++ trim s ++ r
              /\ all_ws l = true /\ all_ws r = true
              /\ starts_with_ws (trim s) = false
              /\ ends_with_ws (trim s) = false.
Proof.
  unfold trim.
  destruct (trim_start_decompose s) as (l & Hl & Hwl & Hs).
  destruct (trim_end_decompose (trim_start s)) as (r & Hr & Hwr & He).
  exists l, r. repeat split; auto.
  - now rewrite <- Hr.
  - now apply trim_end_keeps_start.
Qed.

Lemma includes_In (l : list string) (x : string) :
  includes l x = true <-> In x l.
Proof.
  unfold includes. rewrite existsb_exists. split.
  - intros (y & Hy & E). apply String.eqb_eq in E. now subst.
  - intros H. exists x. split; [assumption | apply String.eqb_refl].
Qed.

(** The entries of an allowlist: trimmed pieces, none empty. *)
Lemma audiences_of_entries (src a : string) :
  In a (audiences_of src) <->
  a <> "" /\ exists piece, In piece (split "," src) /\ a = trim piece.
Proof.
  unfold audiences_of. rewrite filter_In, in_map_iff, nonempty_true_iff.
  split.
  - intros ((p & Hp & Hin) & Hne). split; [assumption | exists p; auto].
  - intros (Hne & p & Hin & ->). split; [exists p; auto | assumption].
Qed.

End StringFacts.

(* ================================================================== *)
(** ** The identity handler: facts *)
(* ================================================================== *)

Section Identity.

Variable env : Env.

Lemma allowedAudiences_run (t : list Event) :
  allowedAudiences env t = (Val (resolved_allowlist env), (t ++ allowlist_reads env)%list).
Proof.
  unfold allowedAudiences, resolved_allowlist, allowlist_reads, secret_value, call, bind, ret.
  destruct (nonempty (secret env "GOOGLE_ALLOWED_AUDS")); simpl.
  - reflexivity.
  - rewrite <- app_assoc. simpl.
    destruct (nonempty (secret env "GOOGLE_WEB_CLIENT_ID")); reflexivity.
Qed.

(** The minting step always completes, with a token or with [null]. *)
Lemma mint_completes (sub email : JsVal) (t : list Event) :
  exists tok t', mint env sub email t = (Val tok, t').
Proof.
  unfold mint. destruct (truthy sub); [| eexists; eexists; reflexivity].
  unfold try_catch, bind, call, ret, console_log, emit.
  destruct (createCustomToken env sub _); eexists; eexists; reflexivity.
Qed.

Lemma mint_failure_is_null (sub email : JsVal) (e : JsError) (t : list Event) :
  createCustomToken env sub
    (JObj [("email", js_or email (JStr "")); ("provider", JStr "google")]) = Exn e ->
  exists t', mint env sub email t = (Val JNull, t').
Proof.
  intros H. unfold mint. destruct (truthy sub); [| eexists; reflexivity].
  unfold try_catch, bind, call, ret, console_log, emit. rewrite H.
  eexists; reflexivity.
Qed.

Lemma verify_and_answer_completes (tok : string) (allowed : list string) (t : list Event) :
  exists r t', verify_and_answer env tok allowed t = (Val r, t').
Proof.
  unfold verify_and_answer, try_catch, bind, call, ret.
  destruct (verifyIdToken env (JStr tok) allowed) as [payload | e];
    [| eexists; eexists; reflexivity].
  destruct (truthy payload); simpl; [| eexists; eexists; reflexivity].
  destruct (accepted_issuer _); simpl; [| eexists; eexists; reflexivity].
  destruct (includes _ _); simpl; [| eexists; eexists; reflexivity].
  destruct (_ && _); simpl; [eexists; eexists; reflexivity |].
  destruct (mint_completes (get_prop payload "sub") (get_prop payload "email")
              (t ++ [EvVerifyIdToken (JStr tok) allowed])%list) as (v & t' & ->).
  eexists; eexists; reflexivity.
Qed.

(** A rejection by the verifier is answered 401 in revisions A and B. *)
Lemma verify_and_answer_rejected (tok : string) (allowed : list string)
      (e : JsError) (t : list Event) :
  verifyIdToken env (JStr tok) allowed = Exn e ->
  verify_and_answer env tok allowed t
  = (Val (json 401 (JObj [("error", JStr "Invalid Google ID Token");
                          ("details", JStr (message_or_String e))])),
     (t ++ [EvVerifyIdToken (JStr tok) allowed])%list).
Proof.
  intros H. unfold verify_and_answer, try_catch, bind, call, ret. now rewrite H.
Qed.

Lemma verify_and_answer_passes (tok : string) (allowed : list string)
      (payload : JsVal) (t : list Event) :
  verifyIdToken env (JStr tok) allowed = Val payload ->
  passes allowed payload = true ->
  exists token t',
    verify_and_answer env tok allowed t = (Val (identity_answer payload token), t')
    /\ mint env (get_prop payload "sub") (get_prop payload "email")
         (t ++ [EvVerifyIdToken (JStr tok) allowed])%list = (Val token, t').
Proof.
  intros Hv Hp. unfold passes in Hp.
  apply andb_prop in Hp as (Hp & He). apply andb_prop in Hp as (Hp & Ha).
  apply andb_prop in Hp as (Ht & Hi). apply negb_true_iff in He.
  unfold verify_and_answer, try_catch, bind, call, ret. rewrite Hv, Ht, Hi, Ha, He. simpl.
  destruct (mint_completes (get_prop payload "sub") (get_prop payload "email")
              (t ++ [EvVerifyIdToken (JStr tok) allowed])%list) as (v & t' & E).
  exists v, t'. rewrite E. split; reflexivity.
Qed.

(** Only a payload that passes every test is answered with a verified
    identity. *)
Lemma verify_and_answer_success (tok : string) (allowed : list string)
      (t t' : list Event) (r : Response) :
  verify_and_answer env tok allowed t = (Val r, t') ->
  verified_success r ->
  exists payload,
    verifyIdToken env (JStr tok) allowed = Val payload
    /\ passes allowed payload = true.
Proof.
  unfold verify_and_answer, try_catch, bind, call, ret, passes.
  intros H (Hs & Hok & Hg).
  destruct (verifyIdToken env (JStr tok) allowed) as [payload | e].
  2:{ inversion H; subst. discriminate Hs. }
  exists payload. split; [reflexivity |].
  destruct (truthy payload); simpl in *.
  2:{ inversion H; subst. discriminate Hs. }
  destruct (accepted_issuer _); simpl in *.
  2:{ inversion H; subst. discriminate Hs. }
  destruct (includes _ _); simpl in *.
  2:{ inversion H; subst. discriminate Hs. }
  destruct (_ && _); simpl in *; [| reflexivity].
  inversion H; subst. discriminate Hs.
Qed.

Lemma with_audiences_run (tok : string) (t : list Event) :
  with_audiences env tok t
  = if (length (resolved_allowlist env) =? 0)%nat
    then (Val no_audience_configured, (t ++ allowlist_reads env)%list)
    else
      let raw := decodeJwtPayload env tok in
      verify_and_answer env tok (resolved_allowlist env)
        (if truthy raw
         then ((t ++ allowlist_reads env)
                 ++ [EvLog "log"
                       [JStr "[verifyGoogleIdToken] incoming aud/iss";
                        JObj [("aud", get_prop raw "aud"); ("iss", get_prop raw "iss");
                              ("azp", get_prop raw "azp")]]])%list
         else (t ++ allowlist_reads env)%list).
Proof.
  unfold with_audiences, bind. rewrite allowedAudiences_run.
  destruct (length (resolved_allowlist env) =? 0)%nat; [reflexivity |].
  cbv zeta. destruct (truthy (decodeJwtPayload env tok)); reflexivity.
Qed.

Lemma with_audiences_success (tok : string) (t t' : list Event) (r : Response) :
  with_audiences env tok t = (Val r, t') ->
  verified_success r ->
  exists payload,
    verifyIdToken env (JStr tok) (resolved_allowlist env) = Val payload
    /\ passes (resolved_allowlist env) payload = true.
Proof.
  rewrite with_audiences_run.
  destruct (length (resolved_allowlist env) =? 0)%nat.
  - intros H (Hs & _). inversion H; subst. discriminate Hs.
  - cbv zeta. intros H Hv. eapply verify_and_answer_success; eauto.
Qed.

Lemma passes_guard (tok : string) (payload : JsVal) :
  verifyIdToken env (JStr tok) (resolved_allowlist env) = Val payload ->
  passes (resolved_allowlist env) payload = true ->
  identity_guard env tok email_not_refused.
Proof.
  intros Hv Hp. unfold passes in Hp.
  apply andb_prop in Hp as (Hp & He). apply andb_prop in Hp as (Hp & Ha).
  apply andb_prop in Hp as (Ht & Hi). apply negb_true_iff in He.
  exists payload. repeat split; auto.
  unfold email_not_refused.
  destruct (truthy (get_prop payload "email")); [right | now left].
  simpl in He. intros E. rewrite E in He. discriminate He.
Qed.

Lemma A_on_post (req : Request) :
  method req = "POST" ->
  verifyGoogleIdToken_A env req
  = if negb (truthy (idToken_A req)) then ret missing_idToken
    else with_audiences env (js_String (idToken_A req)).
Proof. intros H. unfold verifyGoogleIdToken_A. now rewrite H. Qed.

Lemma B_on_post (req : Request) :
  method req = "POST" ->
  verifyGoogleIdToken_B env req
  = if negb (truthy (idToken_B req)) || negb (typeof_string (idToken_B req))
    then ret missing_idToken
    else with_audiences env (js_String (idToken_B req)).
Proof. intros H. unfold verifyGoogleIdToken_B. now rewrite H. Qed.

(** The identity handlers of revisions A and B always answer. *)
Lemma identity_handlers_answer (req : Request) :
  (exists r t, run (verifyGoogleIdToken_A env req) = (Val r, t))
  /\ (exists r t, run (verifyGoogleIdToken_B env req) = (Val r, t)).
Proof.
  assert (Hw : forall tok, exists r t, with_audiences env tok [] = (Val r, t)).
  { intros tok. rewrite with_audiences_run.
    destruct (length (resolved_allowlist env) =? 0)%nat;
      [eexists; eexists; reflexivity | apply verify_and_answer_completes]. }
  unfold run, verifyGoogleIdToken_A, verifyGoogleIdToken_B. split.
  - destruct (method req =? "OPTIONS")%string; [eexists; eexists; reflexivity |].
    destruct (method req =? "POST")%string; simpl; [| eexists; eexists; reflexivity].
    destruct (truthy (idToken_A req)); simpl; [apply Hw | eexists; eexists; reflexivity].
  - destruct (method req =? "OPTIONS")%string; [eexists; eexists; reflexivity |].
    destruct (method req =? "POST")%string; simpl; [| eexists; eexists; reflexivity].
    destruct (negb (truthy (idToken_B req)) || negb (typeof_string (idToken_B req)));
      [eexists; eexists; reflexivity | apply Hw].
Qed.

End Identity.

(* ================================================================== *)
(** ** The identity handler: the claims *)
(* ================================================================== *)

(** An answer whose status is not 200 carries no verified identity. *)
Ltac not_verified H Hv :=
  inversion H; subst;
  let Hs := fresh "Hs" in destruct Hv as (Hs & _); discriminate Hs.

Lemma response_of_run (m : M Response) (r : Response) :
  response_of (run m) = Some r -> exists t', m [] = (Val r, t').
Proof.
  unfold response_of, run. destruct (m []) as [[r' | e] t']; simpl; intros H.
  - inversion H; subst. now exists t'.
  - discriminate H.
Qed.

(** C1, as amended.  In revisions A and B an answer that carries a verified
    identity (200, ok true, googleUser) is given only when the verifier
    returned a payload whose issuer is one of the two Google issuers, whose
    audience is in the resolved allowlist, and whose email claim is absent
    or empty or whose email_verified claim is not the boolean false. *)
Theorem C1_verified_identity_guard (env : Env) (req : Request) (r : Response) :
  verified_success r ->
  (response_of (run (verifyGoogleIdToken_A env req)) = Some r ->
   identity_guard env (js_String (idToken_A req)) email_not_refused)
  /\ (response_of (run (verifyGoogleIdToken_B env req)) = Some r ->
      identity_guard env (js_String (idToken_B req)) email_not_refused).
Proof.
  intros Hv. split; intros H; apply response_of_run in H as (t' & H).
  - unfold verifyGoogleIdToken_A in H.
    destruct (method req =? "OPTIONS")%string.
    { not_verified H Hv. }
    destruct (method req =? "POST")%string; simpl in H.
    2:{ not_verified H Hv. }
    destruct (truthy (idToken_A req)); simpl in H.
    2:{ not_verified H Hv. }
    destruct (with_audiences_success env _ _ _ _ H Hv) as (payload & Hp & Hpass).
    eapply passes_guard; eauto.
  - unfold verifyGoogleIdToken_B in H.
    destruct (method req =? "OPTIONS")%string.
    { not_verified H Hv. }
    destruct (method req =? "POST")%string; simpl in H.
    2:{ not_verified H Hv. }
    destruct (negb (truthy (idToken_B req)) || negb (typeof_string (idToken_B req))).
    { not_verified H Hv. }
    destruct (with_audiences_success env _ _ _ _ H Hv) as (payload & Hp & Hpass).
    eapply passes_guard; eauto.
Qed.

Lemma C1_verified_identity_guard_witness :
  identity_guard
    (Demo.identity_env (Val Demo.payload_no_email) (Val "custom-token"))
    (js_String (idToken_A Demo.token_request)) email_not_refused.
Proof.
  refine (proj1 (C1_verified_identity_guard
                   (Demo.identity_env (Val Demo.payload_no_email) (Val "custom-token"))
                   Demo.token_request
                   (identity_answer Demo.payload_no_email (JStr "custom-token")) _) _).
  - split; [reflexivity | split; [reflexivity | vm_compute; discriminate]].
  - vm_compute. reflexivity.
Defined.

(** C1 as the specification words it fails: an email claim that comes
    without the email_verified claim is answered with a verified
    identity. *)
Lemma C1_counterexample :
  ~ (forall r : Response,
        response_of
          (run (verifyGoogleIdToken_A
                  (Demo.identity_env (Val Demo.payload_email_unflagged) (Val "custom-token"))
                  Demo.token_request)) = Some r ->
        verified_success r ->
        identity_guard
          (Demo.identity_env (Val Demo.payload_email_unflagged) (Val "custom-token"))
          (js_String (idToken_A Demo.token_request)) email_absent_or_verified).
Proof.
  intros H.
  specialize (H (identity_answer Demo.payload_email_unflagged (JStr "custom-token"))).
  destruct H as (payload & Hp & _ & _ & He).
  - vm_compute. reflexivity.
  - split; [reflexivity | split; [reflexivity | vm_compute; discriminate]].
  - simpl in Hp. inversion Hp; subst payload.
    destruct He as [He | He]; vm_compute in He; discriminate He.
Qed.

(** C4.  Revision C answers a rejection by the verifier with 500: the
    run of the short handler on a token the verifier rejects. *)
Theorem C4_short_revision_answers_500 :
  run (verifyGoogleIdToken_C
         (Demo.identity_env (Exn Demo.rejected) (Val "custom-token"))
         Demo.token_request)
  = (Val (json 500
            (JObj [("ok", JBool false);
                   ("error", JStr "Wrong number of segments in token: tok")])),
     [EvVerifyIdToken (JStr "tok") ALLOWED_AUDIENCES;
      EvLog "error" [JStr "verifyGoogleIdToken error:"; error_val Demo.rejected]]).
Proof. vm_compute. reflexivity. Qed.

(** Revisions A and B answer every rejection by the verifier with 401. *)
Lemma rejected_is_401 (env : Env) (req : Request) (e : JsError) :
  method req = "POST" ->
  resolved_allowlist env <> [] ->
  (truthy (idToken_A req) = true ->
   verifyIdToken env (JStr (js_String (idToken_A req))) (resolved_allowlist env) = Exn e ->
   response_of (run (verifyGoogleIdToken_A env req))
   = Some (json 401 (JObj [("error", JStr "Invalid Google ID Token");
                           ("details", JStr (message_or_String e))])))
  /\ (truthy (idToken_B req) = true -> typeof_string (idToken_B req) = true ->
      verifyIdToken env (JStr (js_String (idToken_B req))) (resolved_allowlist env) = Exn e ->
      response_of (run (verifyGoogleIdToken_B env req))
      = Some (json 401 (JObj [("error", JStr "Invalid Google ID Token");
                              ("details", JStr (message_or_String e))]))).
Proof.
  intros Hm Hne.
  assert (Hlen : (length (resolved_allowlist env) =? 0)%nat = false).
  { destruct (resolved_allowlist env); [contradiction | reflexivity]. }
  split.
  - intros Ht Hv. unfold run. rewrite A_on_post, Ht by assumption. simpl.
    rewrite with_audiences_run, Hlen. cbv zeta.
    rewrite (verify_and_answer_rejected env _ _ e) by assumption. reflexivity.
  - intros Ht Hs Hv. unfold run. rewrite B_on_post, Ht, Hs by assumption. simpl.
    rewrite with_audiences_run, Hlen. cbv zeta.
    rewrite (verify_and_answer_rejected env _ _ e) by assumption. reflexivity.
Qed.

(** C7.  On a POST with a token, when the resolved allowlist is empty,
    revisions A and B answer 500 (no audience configured) and the log of
    the run holds no call of the verifier. *)
Theorem C7_empty_allowlist_fails_closed (env : Env) (req : Request) :
  method req = "POST" ->
  resolved_allowlist env = [] ->
  (truthy (idToken_A req) = true ->
   response_of (run (verifyGoogleIdToken_A env req)) = Some no_audience_configured
   /\ status no_audience_configured = 500
   /\ count is_verifier_call (trace_of (run (verifyGoogleIdToken_A env req))) = 0%nat)
  /\ (truthy (idToken_B req) = true -> typeof_string (idToken_B req) = true ->
      response_of (run (verifyGoogleIdToken_B env req)) = Some no_audience_configured
      /\ status no_audience_configured = 500
      /\ count is_verifier_call (trace_of (run (verifyGoogleIdToken_B env req))) = 0%nat).
Proof.
  intros Hm He.
  assert (Hreads : count is_verifier_call (allowlist_reads env) = 0%nat).
  { unfold allowlist_reads. destruct (nonempty _); reflexivity. }
  split.
  - intros Ht. unfold run. rewrite A_on_post, Ht by assumption. simpl.
    rewrite with_audiences_run, He. simpl. auto.
  - intros Ht Hs. unfold run. rewrite B_on_post, Ht, Hs by assumption. simpl.
    rewrite with_audiences_run, He. simpl. auto.
Qed.

Lemma C7_empty_allowlist_fails_closed_witness :
  response_of
    (run (verifyGoogleIdToken_A (Demo.billing_env (Exn Demo.rejected) (Exn Demo.rejected))
            Demo.token_request)) = Some no_audience_configured
  /\ status no_audience_configured = 500
  /\ count is_verifier_call
       (trace_of
          (run (verifyGoogleIdToken_A
                  (Demo.billing_env (Exn Demo.rejected) (Exn Demo.rejected))
                  Demo.token_request))) = 0%nat.
Proof.
  refine (proj1 (C7_empty_allowlist_fails_closed
                   (Demo.billing_env (Exn Demo.rejected) (Exn Demo.rejected))
                   Demo.token_request _ _) _); reflexivity.
Defined.

(** C8.  On a POST whose token the verifier accepts with a payload that
    passes every test, when the minting of the custom token throws,
    revisions A and B still answer 200 with ok true and the verified
    identity, and firebaseCustomToken is null. *)
Theorem C8_mint_failure_keeps_success (env : Env) (req : Request)
        (payload : JsVal) (e : JsError) :
  method req = "POST" ->
  resolved_allowlist env <> [] ->
  passes (resolved_allowlist env) payload = true ->
  createCustomToken env (get_prop payload "sub")
    (JObj [("email", js_or (get_prop payload "email") (JStr ""));
           ("provider", JStr "google")]) = Exn e ->
  (truthy (idToken_A req) = true ->
   verifyIdToken env (JStr (js_String (idToken_A req))) (resolved_allowlist env)
   = Val payload ->
   response_of (run (verifyGoogleIdToken_A env req)) = Some (identity_answer payload JNull))
  /\ (truthy (idToken_B req) = true -> typeof_string (idToken_B req) = true ->
      verifyIdToken env (JStr (js_String (idToken_B req))) (resolved_allowlist env)
      = Val payload ->
      response_of (run (verifyGoogleIdToken_B env req))
      = Some (identity_answer payload JNull)).
Proof.
  intros Hm Hne Hpass Hmint.
  assert (Hlen : (length (resolved_allowlist env) =? 0)%nat = false).
  { destruct (resolved_allowlist env); [contradiction | reflexivity]. }
  assert (Hcore : forall tok t,
             verifyIdToken env (JStr tok) (resolved_allowlist env) = Val payload ->
             exists t', verify_and_answer env tok (resolved_allowlist env) t
                        = (Val (identity_answer payload JNull), t')).
  { intros tok t Hv.
    destruct (verify_and_answer_passes env tok _ payload t Hv Hpass)
      as (token & t' & Hrun & Hm').
    destruct (mint_failure_is_null env _ _ e
                (t ++ [EvVerifyIdToken (JStr tok) (resolved_allowlist env)])%list Hmint)
      as (t'' & Hnull).
    rewrite Hnull in Hm'. inversion Hm'; subst. now exists t'. }
  split.
  - intros Ht Hv. unfold run. rewrite A_on_post, Ht by assumption. simpl.
    rewrite with_audiences_run, Hlen. cbv zeta.
    match goal with |- context [verify_and_answer env ?k ?a ?t] =>
      destruct (Hcore k t Hv) as (t' & ->) end.
    reflexivity.
  - intros Ht Hs Hv. unfold run. rewrite B_on_post, Ht, Hs by assumption. simpl.
    rewrite with_audiences_run, Hlen. cbv zeta.
    match goal with |- context [verify_and_answer env ?k ?a ?t] =>
      destruct (Hcore k t Hv) as (t' & ->) end.
    reflexivity.
Qed.

Lemma C8_mint_failure_keeps_success_witness :
  response_of
    (run (verifyGoogleIdToken_A
            (Demo.identity_env (Val Demo.payload_no_email) (Exn Demo.mint_failure))
            Demo.token_request))
  = Some (identity_answer Demo.payload_no_email JNull).
Proof.
  refine (proj1 (C8_mint_failure_keeps_success
                   (Demo.identity_env (Val Demo.payload_no_email) (Exn Demo.mint_failure))
                   Demo.token_request Demo.payload_no_email Demo.mint_failure
                   _ _ _ _) _ _);
    try reflexivity.
  vm_compute. discriminate.
Defined.

(** C9.  For every pair of secret values, the allowlist that revisions A
    and B resolve is the one of the specification: the multi-value secret
    if it is non-empty, else the single client id; split at commas, each
    entry trimmed, empty entries dropped. *)
Theorem C9_allowlist_resolution (env : Env) :
  fst (run (allowedAudiences env))
  = Val (allowlist_spec (secret env "GOOGLE_ALLOWED_AUDS")
           (secret env "GOOGLE_WEB_CLIENT_ID"))
  /\ allowlist_spec (secret env "GOOGLE_ALLOWED_AUDS") (secret env "GOOGLE_WEB_CLIENT_ID")
     = audiences_of (if nonempty (secret env "GOOGLE_ALLOWED_AUDS")
                     then secret env "GOOGLE_ALLOWED_AUDS"
                     else secret env "GOOGLE_WEB_CLIENT_ID").
Proof.
  assert (Hd : forall l, drop_empties l = filter nonempty l).
  { intros l. unfold drop_empties. apply filter_ext. intros s.
    now rewrite nonempty_length. }
  unfold run. rewrite allowedAudiences_run. simpl fst.
  unfold resolved_allowlist, allowlist_spec, first_nonempty, comma_split, audiences_of.
  cbv zeta. rewrite Hd. simpl find.
  destruct (nonempty (secret env "GOOGLE_ALLOWED_AUDS")); [split; reflexivity |].
  destruct (nonempty (secret env "GOOGLE_WEB_CLIENT_ID")) eqn:E; [split; reflexivity |].
  unfold nonempty in E. apply negb_false_iff, String.eqb_eq in E. rewrite E.
  split; reflexivity.
Qed.

(** C10.  A request whose method is neither POST nor OPTIONS is answered
    405, Method Not Allowed, by the identity handlers of revisions A and B
    and by the purchase handler of revision B, with an empty log: no
    secret is read and no collaborator is called.  An OPTIONS request is
    answered 204 with an empty body. *)
Theorem C10_method_gate (env : Env) (req : Request) :
  method req <> "POST" ->
  (method req <> "OPTIONS" ->
   run (verifyGoogleIdToken_A env req) = (Val method_not_allowed, [])
   /\ run (verifyGoogleIdToken_B env req) = (Val method_not_allowed, [])
   /\ run (verifyPurchase_B env req) = (Val method_not_allowed, [])
   /\ status method_not_allowed = 405)
  /\ (method req = "OPTIONS" ->
      exists hs hp,
        run (verifyGoogleIdToken_A env req) = (Val (mkResponse 204 hs (BSend "")), [])
        /\ run (verifyGoogleIdToken_B env req) = (Val (mkResponse 204 hs (BSend "")), [])
        /\ run (verifyPurchase_B env req) = (Val (mkResponse 204 hp (BSend "")), [])).
Proof.
  intros Hpost. apply String.eqb_neq in Hpost. split.
  - intros Hopt. apply String.eqb_neq in Hopt.
    unfold run, verifyGoogleIdToken_A, verifyGoogleIdToken_B, verifyPurchase_B.
    rewrite Hopt, Hpost. simpl. repeat split; reflexivity.
  - intros Hopt.
    unfold run, verifyGoogleIdToken_A, verifyGoogleIdToken_B, verifyPurchase_B.
    rewrite Hopt. simpl. unfold preflight.
    eexists. eexists. repeat split; reflexivity.
Qed.

Lemma C10_method_gate_witness :
  run (verifyGoogleIdToken_A (Demo.billing_env (Exn Demo.rejected) (Exn Demo.rejected))
         (mkRequest "GET" JUndefined []))
  = (Val method_not_allowed, [])
  /\ run (verifyGoogleIdToken_B (Demo.billing_env (Exn Demo.rejected) (Exn Demo.rejected))
            (mkRequest "GET" JUndefined []))
     = (Val method_not_allowed, [])
  /\ run (verifyPurchase_B (Demo.billing_env (Exn Demo.rejected) (Exn Demo.rejected))
            (mkRequest "GET" JUndefined []))
     = (Val method_not_allowed, [])
  /\ status method_not_allowed = 405.
Proof.
  refine (proj1 (C10_method_gate
                   (Demo.billing_env (Exn Demo.rejected) (Exn Demo.rejected))
                   (mkRequest "GET" JUndefined []) _) _);
    simpl; discriminate.
Defined.

(* ================================================================== *)
(** ** The purchase handler: facts *)
(* ================================================================== *)

(** Closes a goal [exists r t, run = (Val r, t) /\ status /\ count] once
    the run is a value. *)
Tactic Notation "answered" tactic(side) :=
  eexists; eexists; split; [reflexivity | split; [side; reflexivity | reflexivity]].

Section Purchase.

Variable env : Env.
Variable req : Request.

Lemma inapp_run (creds data : JsVal) :
  inapp_fetched env req creds data ->
  run (verifyPurchase_B env req) = (Val (inapp_answer req data), inapp_trace env req creds data).
Proof.
  intros ((Hm & Hpkg & Htok & Hsec & Hparse & Hcreds) & Hpid & Hget & Hdata).
  unfold products_params in Hget.
  unfold run, verifyPurchase_B. rewrite Hm. simpl. rewrite Hpkg, Htok, Hpid. simpl.
  unfold bind at 1, secret_value, call. rewrite Hsec. simpl.
  unfold try_catch, bind at 1, getAuthFromServiceAccountJson, bind at 1, of_res.
  rewrite Hparse, Hcreds. unfold ret at 1.
  unfold inapp_branch, bind at 1, call. rewrite Hget, Hdata.
  unfold inapp_trace, inapp_ack_guard, inapp_answer, products_params, inapp_ack_params.
  destruct (truthy (purchase_field req "acknowledge")); simpl; [| reflexivity].
  destruct (seq_num (get_prop data "purchaseState") 0); simpl; [| reflexivity].
  destruct (seq_num (get_prop data "acknowledgementState") 1); simpl; [reflexivity |].
  unfold bind, try_catch, call, ret, console_log, emit. simpl.
  destruct (products_acknowledge env _ _) as [[] | e]; reflexivity.
Qed.

Lemma subs_run (creds data : JsVal) :
  subs_fetched env req creds data ->
  run (verifyPurchase_B env req) = (Val (subs_answer env req data), subs_trace env req creds data).
Proof.
  intros ((Hm & Hpkg & Htok & Hsec & Hparse & Hcreds) & Hpid & Hsid & Hget & Hdata).
  unfold subscriptions_params in Hget.
  unfold run, verifyPurchase_B. rewrite Hm. simpl. rewrite Hpkg, Htok, Hpid, Hsid. simpl.
  unfold bind at 1, secret_value, call. rewrite Hsec. simpl.
  unfold try_catch, bind at 1, getAuthFromServiceAccountJson, bind at 1, of_res.
  rewrite Hparse, Hcreds. unfold ret at 1.
  unfold subs_branch. cbv zeta. unfold bind at 1, call. rewrite Hget, Hdata.
  unfold subs_trace, subs_ack_guard, subs_answer, subscriptions_params, subs_ack_params.
  destruct (truthy (purchase_field req "acknowledge")); simpl; [| reflexivity].
  destruct (seq_num (get_prop data "acknowledgementState") 1); simpl; [reflexivity |].
  unfold bind, try_catch, call, ret, console_log, emit. simpl.
  destruct (subscriptions_acknowledge env _ _) as [[] | e]; reflexivity.
Qed.

Lemma ack_warning_no_ack (p : Event -> bool) (label : string) (r : Res unit) :
  (forall l a, p (EvLog l a) = false) -> filter p (ack_warning label r) = [].
Proof. intros H. destruct r; simpl; [reflexivity | now rewrite H]. Qed.

Lemma inapp_ack_count (creds data : JsVal) :
  count is_products_ack (inapp_trace env req creds data)
  = if inapp_ack_guard req data then 1%nat else 0%nat.
Proof.
  unfold count, inapp_trace. destruct (inapp_ack_guard req data); simpl; [| reflexivity].
  now rewrite ack_warning_no_ack.
Qed.

Lemma subs_ack_count (creds data : JsVal) :
  count is_subs_ack (subs_trace env req creds data)
  = if subs_ack_guard req data then 1%nat else 0%nat.
Proof.
  unfold count, subs_trace. destruct (subs_ack_guard req data); simpl; [| reflexivity].
  now rewrite ack_warning_no_ack.
Qed.

(** With a product id the handler answers 200 or 500 and leaves the
    subscription endpoints alone, whatever the subscription id. *)
Lemma product_id_wins :
  method req = "POST" ->
  truthy (purchase_field req "packageName") = true ->
  truthy (purchase_field req "purchaseToken") = true ->
  truthy (purchase_field req "productId") = true ->
  exists r t,
    run (verifyPurchase_B env req) = (Val r, t)
    /\ (status r = 200 \/ status r = 500)
    /\ count is_subs_call t = 0%nat.
Proof.
  intros Hm Hpkg Htok Hpid.
  unfold run, verifyPurchase_B. rewrite Hm. simpl. rewrite Hpkg, Htok, Hpid. simpl.
  unfold bind at 1, secret_value, call.
  destruct (nonempty (secret env "GP_SERVICE_ACCOUNT_JSON")); simpl.
  2:{ answered right. }
  unfold try_catch, bind at 1, getAuthFromServiceAccountJson, bind at 1, of_res.
  destruct (JSON_parse env (secret env "GP_SERVICE_ACCOUNT_JSON")) as [creds | e].
  2:{ unfold bind, console_log, emit, ret. answered right. }
  destruct (nullish creds).
  { unfold throw, bind, console_log, emit, ret. answered right. }
  unfold ret at 1. unfold inapp_branch, bind at 1, call.
  destruct (products_get env _ _) as [data | e].
  2:{ unfold bind, console_log, emit, ret. answered right. }
  destruct (nullish data).
  { unfold throw, bind, console_log, emit, ret. answered right. }
  destruct (truthy (purchase_field req "acknowledge")
            && seq_num (get_prop data "purchaseState") 0
            && negb (seq_num (get_prop data "acknowledgementState") 1)).
  2:{ unfold bind, ret. answered left. }
  unfold bind, try_catch, call, ret, console_log, emit.
  destruct (products_acknowledge env _ _) as [[] | e]; answered left.
Qed.

End Purchase.

(* ================================================================== *)
(** ** The purchase handler: the claims *)
(* ================================================================== *)

(** C2, as amended.  On a POST whose productId and subscriptionId are both
    absent, revision B answers 400, Missing fields, naming the required
    combination, and calls nothing.  When both are present, with package
    name and purchase token, it does not answer Missing fields: it answers
    200 or 500 from the in-app branch and never calls a subscription
    endpoint.  At least one of the two has to be supplied. *)
Theorem C2_missing_fields (env : Env) (req : Request) :
  method req = "POST" ->
  (truthy (purchase_field req "productId") = false ->
   truthy (purchase_field req "subscriptionId") = false ->
   run (verifyPurchase_B env req) = (Val missing_fields, [])
   /\ status missing_fields = 400
   /\ answer_field missing_fields "required"
      = Some (JStr "packageName, purchaseToken, and (productId or subscriptionId)"))
  /\ (truthy (purchase_field req "productId") = true ->
      truthy (purchase_field req "subscriptionId") = true ->
      truthy (purchase_field req "packageName") = true ->
      truthy (purchase_field req "purchaseToken") = true ->
      exists r t,
        run (verifyPurchase_B env req) = (Val r, t)
        /\ (status r = 200 \/ status r = 500)
        /\ count is_subs_call t = 0%nat).
Proof.
  intros Hm. split.
  - intros Hpid Hsid. unfold run, verifyPurchase_B. rewrite Hm. simpl.
    rewrite Hpid, Hsid. simpl. rewrite !orb_true_r. repeat split; reflexivity.
  - intros Hpid _ Hpkg Htok. now apply product_id_wins.
Qed.

Lemma C2_missing_fields_witness :
  run (verifyPurchase_B
         (Demo.billing_env (Val (Demo.product_data 0 0)) (Exn Demo.rejected))
         Demo.neither_request) = (Val missing_fields, [])
  /\ status missing_fields = 400
  /\ answer_field missing_fields "required"
     = Some (JStr "packageName, purchaseToken, and (productId or subscriptionId)").
Proof.
  refine (proj1 (C2_missing_fields
                   (Demo.billing_env (Val (Demo.product_data 0 0)) (Exn Demo.rejected))
                   Demo.neither_request _) _ _);
    reflexivity.
Defined.

(** C2 as the specification words it fails: a query with both productId
    and subscriptionId is not answered Missing fields; the in-app branch
    answers it. *)
Lemma C2_counterexample :
  response_of
    (run (verifyPurchase_B
            (Demo.billing_env (Val (Demo.product_data 0 0)) (Exn Demo.rejected))
            Demo.both_request))
  = Some (inapp_answer Demo.both_request (Demo.product_data 0 0))
  /\ status (inapp_answer Demo.both_request (Demo.product_data 0 0)) = 200
  /\ response_of
       (run (verifyPurchase_B
               (Demo.billing_env (Val (Demo.product_data 0 0)) (Exn Demo.rejected))
               Demo.both_request))
     <> Some missing_fields.
Proof.
  split; [vm_compute; reflexivity | split; [reflexivity | vm_compute; discriminate]].
Qed.

(** C3, as amended.  On the subscription branch of revision B the
    acknowledge call is made if and only if acknowledge was requested and
    the subscription is not yet acknowledged (acknowledgementState is not
    1), whether the subscription is active or not; it is made once, for
    the subscription identifier of the query. *)
Theorem C3_subscription_acknowledge_guard (env : Env) (req : Request)
        (creds data : JsVal) :
  subs_fetched env req creds data ->
  count is_subs_ack (trace_of (run (verifyPurchase_B env req)))
  = (if subs_ack_guard req data then 1%nat else 0%nat)
  /\ (In (EvSubscriptionsAcknowledge (subs_ack_params req))
         (trace_of (run (verifyPurchase_B env req)))
      <-> truthy (purchase_field req "acknowledge") = true
          /\ seq_num (get_prop data "acknowledgementState") 1 = false)
  /\ get_prop (subs_ack_params req) "subscriptionId"
     = JStr (js_String (purchase_field req "subscriptionId")).
Proof.
  intros H. rewrite (subs_run env req creds data H). unfold trace_of. simpl snd.
  split; [apply subs_ack_count |]. split; [| reflexivity].
  unfold subs_trace, subs_ack_guard.
  destruct (truthy (purchase_field req "acknowledge")); simpl.
  - destruct (seq_num (get_prop data "acknowledgementState") 1); simpl.
    + split; [intros [E | [E | []]]; discriminate E | intros (_ & E); discriminate E].
    + split; [auto | intros _; right; right; now left].
  - split; [intros [E | [E | []]]; discriminate E | intros (E & _); discriminate E].
Qed.

Lemma C3_subscription_acknowledge_guard_witness :
  count is_subs_ack
    (trace_of
       (run (verifyPurchase_B
               (Demo.billing_env (Exn Demo.rejected)
                  (Val (Demo.subscription_data "1800000000000" true 0)))
               (Demo.subs_request true)))) = 1%nat.
Proof.
  refine (proj1 (C3_subscription_acknowledge_guard
                   (Demo.billing_env (Exn Demo.rejected)
                      (Val (Demo.subscription_data "1800000000000" true 0)))
                   (Demo.subs_request true) Demo.service_account
                   (Demo.subscription_data "1800000000000" true 0) _)).
  repeat split; reflexivity.
Defined.

(** C3 as the specification words it fails: for an expired subscription
    that is not acknowledged, a query that requests the acknowledgement
    gets the acknowledge call although the subscription is not active. *)
Lemma C3_counterexample :
  ~ (count is_subs_ack
       (trace_of
          (run (verifyPurchase_B
                  (Demo.billing_env (Exn Demo.rejected)
                     (Val (Demo.subscription_data "1600000000000" false 0)))
                  (Demo.subs_request true)))) = 1%nat
     <-> truthy (purchase_field (Demo.subs_request true) "acknowledge") = true
         /\ active_at
              (Demo.billing_env (Exn Demo.rejected)
                 (Val (Demo.subscription_data "1600000000000" false 0)))
              (Demo.subscription_data "1600000000000" false 0) = true
         /\ seq_num (get_prop (Demo.subscription_data "1600000000000" false 0)
                       "acknowledgementState") 1 = false).
Proof.
  intros [H _]. destruct H as (_ & Hactive & _); [vm_compute; reflexivity |].
  vm_compute in Hactive. discriminate Hactive.
Qed.

(** C5.  On the in-app branch of revision B, a purchase with purchaseState 0
    and acknowledgementState 0 under a query with acknowledge true gets
    exactly one acknowledge call; a purchase with acknowledgementState 1,
    or with a purchaseState other than 0, gets none, whatever the query
    asks. *)
Theorem C5_inapp_acknowledge (env : Env) (req : Request) (creds data : JsVal) :
  inapp_fetched env req creds data ->
  (get_prop data "purchaseState" = JNum 0 ->
   get_prop data "acknowledgementState" = JNum 0 ->
   purchase_field req "acknowledge" = JBool true ->
   count is_products_ack (trace_of (run (verifyPurchase_B env req))) = 1%nat)
  /\ (get_prop data "acknowledgementState" = JNum 1
      \/ get_prop data "purchaseState" <> JNum 0 ->
      count is_products_ack (trace_of (run (verifyPurchase_B env req))) = 0%nat).
Proof.
  intros H. rewrite (inapp_run env req creds data H). unfold trace_of. simpl snd.
  rewrite inapp_ack_count. unfold inapp_ack_guard. split.
  - intros -> -> ->. reflexivity.
  - intros [-> | Hps].
    + simpl. now rewrite andb_false_r.
    + assert (E : seq_num (get_prop data "purchaseState") 0 = false).
      { destruct (get_prop data "purchaseState"); simpl; try reflexivity.
        apply Z.eqb_neq. intros ->. now apply Hps. }
      rewrite E. now rewrite andb_false_r.
Qed.

Lemma C5_inapp_acknowledge_witness :
  count is_products_ack
    (trace_of
       (run (verifyPurchase_B
               (Demo.billing_env (Val (Demo.product_data 0 0)) (Exn Demo.rejected))
               (Demo.inapp_request true)))) = 1%nat
  /\ count is_products_ack
       (trace_of
          (run (verifyPurchase_B
                  (Demo.billing_env (Val (Demo.product_data 1 0)) (Exn Demo.rejected))
                  (Demo.inapp_request true)))) = 0%nat.
Proof.
  split.
  - refine (proj1 (C5_inapp_acknowledge
                     (Demo.billing_env (Val (Demo.product_data 0 0)) (Exn Demo.rejected))
                     (Demo.inapp_request true) Demo.service_account
                     (Demo.product_data 0 0) _) _ _ _);
      try reflexivity.
    repeat split; reflexivity.
  - refine (proj2 (C5_inapp_acknowledge
                     (Demo.billing_env (Val (Demo.product_data 1 0)) (Exn Demo.rejected))
                     (Demo.inapp_request true) Demo.service_account
                     (Demo.product_data 1 0) _) _).
    + repeat split; reflexivity.
    + right. vm_compute. discriminate.
Defined.

(** C6.  On the subscription branch of revision B the answer is 200 and
    its ok field is: expiryTimeMillis is present and its number is greater
    than the clock, in milliseconds.  No other field of the fetched
    subscription enters. *)
Theorem C6_subscription_active (env : Env) (req : Request) (creds data : JsVal) :
  subs_fetched env req creds data ->
  exists r,
    response_of (run (verifyPurchase_B env req)) = Some r
    /\ status r = 200
    /\ answer_field r "ok"
       = Some (JBool (truthy (get_prop data "expiryTimeMillis")
                      && num_gt (Number env (get_prop data "expiryTimeMillis"))
                           (now env))).
Proof.
  intros H. exists (subs_answer env req data).
  rewrite (subs_run env req creds data H). repeat split; reflexivity.
Qed.

Lemma C6_subscription_active_witness :
  exists r,
    response_of
      (run (verifyPurchase_B
              (Demo.billing_env (Exn Demo.rejected)
                 (Val (Demo.subscription_data "1800000000000" false 1)))
              (Demo.subs_request false))) = Some r
    /\ status r = 200
    /\ answer_field r "ok" = Some (JBool true).
Proof.
  refine (C6_subscription_active
            (Demo.billing_env (Exn Demo.rejected)
               (Val (Demo.subscription_data "1800000000000" false 1)))
            (Demo.subs_request false) Demo.service_account
            (Demo.subscription_data "1800000000000" false 1) _).
  repeat split; reflexivity.
Defined.

(** The ok field of two subscriptions with the same expiry is the same. *)
Lemma subscription_ok_by_expiry (env : Env) (data data' : JsVal) :
  get_prop data "expiryTimeMillis" = get_prop data' "expiryTimeMillis" ->
  active_at env data = active_at env data'.
Proof. unfold active_at. now intros ->. Qed.

(** An expiry in the past gives ok false, with or without renewal. *)
Example expired_subscription (autoRenewing : bool) :
  response_of
    (run (verifyPurchase_B
            (Demo.billing_env (Exn Demo.rejected)
               (Val (Demo.subscription_data "1600000000000" autoRenewing 1)))
            (Demo.subs_request false)))
  = Some (subs_answer
            (Demo.billing_env (Exn Demo.rejected)
               (Val (Demo.subscription_data "1600000000000" autoRenewing 1)))
            (Demo.subs_request false)
            (Demo.subscription_data "1600000000000" autoRenewing 1))
  /\ active_at
       (Demo.billing_env (Exn Demo.rejected)
          (Val (Demo.subscription_data "1600000000000" autoRenewing 1)))
       (Demo.subscription_data "1600000000000" autoRenewing 1) = false.
Proof. destruct autoRenewing; split; vm_compute; reflexivity. Qed.

(* ================================================================== *)
(** ** Runs on the samples *)
(* ================================================================== *)

(** The scenario of the specification: audience client-A in the
    allowlist client-A, client-B, Google issuer, no email. *)
Example scenario_identity :
  run (verifyGoogleIdToken_A
         (Demo.identity_env (Val Demo.payload_no_email) (Val "custom-token"))
         Demo.token_request)
  = (Val (json 200
            (JObj [("ok", JBool true);
                   ("googleUser",
                     JObj [("uid", JStr "subject-1"); ("email", JUndefined);
                           ("name", JUndefined); ("picture", JUndefined)]);
                   ("firebaseCustomToken", JStr "custom-token")])),
     [EvSecret "GOOGLE_ALLOWED_AUDS";
      EvVerifyIdToken (JStr "tok") ["client-A"; "client-B"];
      EvCreateCustomToken (JStr "subject-1")
        (JObj [("email", JStr ""); ("provider", JStr "google")])]).
Proof. vm_compute. reflexivity. Qed.

(** The scenario of the specification: a canceled in-app purchase. *)
Example scenario_canceled :
  run (verifyPurchase_B
         (Demo.billing_env (Val (Demo.product_data 1 0)) (Exn Demo.rejected))
         (Demo.inapp_request true))
  = (Val (json 200
            (JObj [("ok", JBool false); ("type", JStr "inapp");
                   ("productId", JStr "p1"); ("orderId", JStr "GPA.1");
                   ("purchaseState", JNum 1); ("acknowledgementState", JNum 0);
                   ("consumptionState", JNum 0);
                   ("purchaseTimeMillis", JStr "1690000000000");
                   ("kind", JUndefined)])),
     [EvSecret "GP_SERVICE_ACCOUNT_JSON";
      EvProductsGet (products_params (Demo.inapp_request true))]).
Proof. vm_compute. reflexivity. Qed.

(* ================================================================== *)
(** ** The identity handler: further properties *)
(* ================================================================== *)

Section IdentityReach.

Variable env : Env.

Lemma with_audiences_prefix (tok : string) :
  resolved_allowlist env <> [] ->
  with_audiences env tok []
  = verify_and_answer env tok (resolved_allowlist env) (identity_prefix env tok).
Proof.
  intros Hne. rewrite with_audiences_run.
  destruct (resolved_allowlist env) as [| a l] eqn:E; [contradiction |].
  simpl Nat.eqb. cbv iota zeta. unfold identity_prefix, debug_log. cbv zeta.
  destruct (truthy (decodeJwtPayload env tok)); simpl; [reflexivity |].
  now rewrite app_nil_r.
Qed.

(** A POST with a token reaches the verifier once an audience is
    configured. *)
Lemma reaches_verifier (req : Request) (tok : string) :
  method req = "POST" ->
  resolved_allowlist env <> [] ->
  (takes_token_A req tok ->
   run (verifyGoogleIdToken_A env req)
   = verify_and_answer env tok (resolved_allowlist env) (identity_prefix env tok))
  /\ (takes_token_B req tok ->
      run (verifyGoogleIdToken_B env req)
      = verify_and_answer env tok (resolved_allowlist env) (identity_prefix env tok)).
Proof.
  intros Hm Hne. split.
  - intros (Ht & ->). unfold run. rewrite A_on_post, Ht by assumption. simpl.
    now apply with_audiences_prefix.
  - intros (Ht & Hs & ->). unfold run. rewrite B_on_post, Ht, Hs by assumption. simpl.
    now apply with_audiences_prefix.
Qed.

Variable tok : string.
Variable allowed : list string.
Variable payload : JsVal.
Hypothesis Hverified : verifyIdToken env (JStr tok) allowed = Val payload.

Lemma refused_payload (t : list Event) :
  truthy payload = false ->
  verify_and_answer env tok allowed t
  = (Val (answers_401 "Invalid token payload"),
     (t ++ [EvVerifyIdToken (JStr tok) allowed])%list).
Proof.
  intros H. unfold verify_and_answer, try_catch, bind, call, ret.
  now rewrite Hverified, H.
Qed.

Lemma refused_issuer (t : list Event) :
  truthy payload = true ->
  accepted_issuer (get_prop payload "iss") = false ->
  verify_and_answer env tok allowed t
  = (Val (answers_401 "Invalid issuer"), (t ++ [EvVerifyIdToken (JStr tok) allowed])%list).
Proof.
  intros H Hi. unfold verify_and_answer, try_catch, bind, call, ret.
  now rewrite Hverified, H, Hi.
Qed.

Lemma refused_audience (t : list Event) :
  truthy payload = true ->
  accepted_issuer (get_prop payload "iss") = true ->
  includes allowed (js_String (get_prop payload "aud")) = false ->
  verify_and_answer env tok allowed t
  = (Val (invalid_audience (get_prop payload "aud") allowed),
     (t ++ [EvVerifyIdToken (JStr tok) allowed])%list).
Proof.
  intros H Hi Ha. unfold verify_and_answer, try_catch, bind, call, ret.
  now rewrite Hverified, H, Hi, Ha.
Qed.

Lemma refused_email (t : list Event) :
  truthy payload = true ->
  accepted_issuer (get_prop payload "iss") = true ->
  includes allowed (js_String (get_prop payload "aud")) = true ->
  truthy (get_prop payload "email") = true ->
  get_prop payload "email_verified" = JBool false ->
  verify_and_answer env tok allowed t
  = (Val (answers_401 "Email not verified"),
     (t ++ [EvVerifyIdToken (JStr tok) allowed])%list).
Proof.
  intros H Hi Ha He Hv. unfold verify_and_answer, try_catch, bind, call, ret.
  now rewrite Hverified, H, Hi, Ha, He, Hv.
Qed.

Lemma passes_unfold :
  passes allowed payload = true ->
  truthy payload = true
  /\ accepted_issuer (get_prop payload "iss") = true
  /\ includes allowed (js_String (get_prop payload "aud")) = true
  /\ truthy (get_prop payload "email")
     && seq_bool (get_prop payload "email_verified") false = false.
Proof.
  unfold passes. intros Hp.
  apply andb_prop in Hp as (Hp & He). apply andb_prop in Hp as (Hp & Ha).
  apply andb_prop in Hp as (Ht & Hi). apply negb_true_iff in He. auto.
Qed.

Lemma answered_with_token (t : list Event) (s : string) :
  passes allowed payload = true ->
  truthy (get_prop payload "sub") = true ->
  createCustomToken env (get_prop payload "sub") (mint_claims payload) = Val s ->
  verify_and_answer env tok allowed t
  = (Val (identity_answer payload (JStr s)),
     (t ++ [EvVerifyIdToken (JStr tok) allowed;
            EvCreateCustomToken (get_prop payload "sub") (mint_claims payload)])%list).
Proof.
  intros Hp Hs Hm. apply passes_unfold in Hp as (Ht & Hi & Ha & He).
  unfold mint_claims in Hm.
  unfold verify_and_answer, try_catch, bind, call, ret.
  rewrite Hverified, Ht, Hi, Ha, He. simpl.
  unfold mint, try_catch, bind, call, ret. rewrite Hs, Hm.
  rewrite <- app_assoc. reflexivity.
Qed.

Lemma answered_without_subject (t : list Event) :
  passes allowed payload = true ->
  truthy (get_prop payload "sub") = false ->
  verify_and_answer env tok allowed t
  = (Val (identity_answer payload JNull), (t ++ [EvVerifyIdToken (JStr tok) allowed])%list).
Proof.
  intros Hp Hs. apply passes_unfold in Hp as (Ht & Hi & Ha & He).
  unfold verify_and_answer, try_catch, bind, call, ret.
  rewrite Hverified, Ht, Hi, Ha, He. simpl.
  unfold mint, ret. now rewrite Hs.
Qed.

End IdentityReach.

(* ------------------------------------------------------------------ *)
(** *** Counting in a log *)

Lemma count_app (p : Event -> bool) (l l' : list Event) :
  count p (l ++ l') = (count p l + count p l')%nat.
Proof. unfold count. now rewrite filter_app, length_app. Qed.

Lemma count_none_In (p : Event -> bool) (l : list Event) (ev : Event) :
  count p l = 0%nat -> In ev l -> p ev = false.
Proof.
  unfold count. induction l as [| x l IH]; simpl; [contradiction |].
  destruct (p x) eqn:E; simpl; [discriminate |].
  intros H [<- | Hin]; auto.
Qed.

Lemma allowlist_reads_quiet (env : Env) :
  count is_verifier_call (allowlist_reads env) = 0%nat
  /\ count is_mint_call (allowlist_reads env) = 0%nat.
Proof. unfold allowlist_reads. destruct (nonempty _); split; reflexivity. Qed.

Lemma identity_prefix_quiet (env : Env) (tok : string) :
  count is_verifier_call (identity_prefix env tok) = 0%nat
  /\ count is_mint_call (identity_prefix env tok) = 0%nat.
Proof.
  unfold identity_prefix. rewrite !count_app.
  destruct (allowlist_reads_quiet env) as (-> & ->).
  unfold debug_log. cbv zeta. destruct (truthy _); split; reflexivity.
Qed.

(* ------------------------------------------------------------------ *)
(** *** Refusals *)

(** On a POST, revision A answers 400, Missing idToken, when neither the
    body nor the header gives a truthy token; revision B answers the same
    when its token is falsy or is not a string.  Nothing is read and
    nothing is called. *)
Theorem missing_token_is_400 (env : Env) (req : Request) :
  method req = "POST" ->
  (truthy (idToken_A req) = false ->
   run (verifyGoogleIdToken_A env req) = (Val missing_idToken, []))
  /\ (truthy (idToken_B req) = false \/ typeof_string (idToken_B req) = false ->
      run (verifyGoogleIdToken_B env req) = (Val missing_idToken, [])).
Proof.
  intros Hm. unfold run. rewrite A_on_post, B_on_post by assumption. split.
  - now intros ->.
  - intros [-> | ->]; [reflexivity | now rewrite orb_true_r].
Qed.

Lemma missing_token_is_400_witness :
  run (verifyGoogleIdToken_A (Sample.env_of (Val Demo.payload_no_email))
         (Demo.post (JObj [])))
  = (Val missing_idToken, [])
  /\ run (verifyGoogleIdToken_B (Sample.env_of (Val Demo.payload_no_email))
            Sample.numeric_token_request)
     = (Val missing_idToken, []).
Proof.
  split.
  - refine (proj1 (missing_token_is_400 (Sample.env_of (Val Demo.payload_no_email))
                     (Demo.post (JObj [])) _) _); reflexivity.
  - refine (proj2 (missing_token_is_400 (Sample.env_of (Val Demo.payload_no_email))
                     Sample.numeric_token_request _) _);
      [reflexivity | right; reflexivity].
Defined.

Lemma rejected_is_401_witness :
  response_of
    (run (verifyGoogleIdToken_A (Sample.env_of (Exn Demo.rejected)) Demo.token_request))
  = Some (json 401 (JObj [("error", JStr "Invalid Google ID Token");
                          ("details", JStr (message_or_String Demo.rejected))])).
Proof.
  refine (proj1 (rejected_is_401 (Sample.env_of (Exn Demo.rejected)) Demo.token_request
                   Demo.rejected _ _) _ _);
    try reflexivity.
  vm_compute. discriminate.
Defined.

(** A payload whose issuer is not one of the two Google issuers is
    answered 401, Invalid issuer, by revisions A and B, whatever its
    audience and email claims; the verifier was called once and no custom
    token is minted. *)
Theorem wrong_issuer_is_401 (env : Env) (req : Request) (tok : string)
        (payload : JsVal) :
  method req = "POST" ->
  resolved_allowlist env <> [] ->
  verifyIdToken env (JStr tok) (resolved_allowlist env) = Val payload ->
  truthy payload = true ->
  accepted_issuer (get_prop payload "iss") = false ->
  (takes_token_A req tok ->
   run (verifyGoogleIdToken_A env req)
   = (Val (answers_401 "Invalid issuer"),
      (identity_prefix env tok
         ++ [EvVerifyIdToken (JStr tok) (resolved_allowlist env)])%list))
  /\ (takes_token_B req tok ->
      run (verifyGoogleIdToken_B env req)
      = (Val (answers_401 "Invalid issuer"),
         (identity_prefix env tok
            ++ [EvVerifyIdToken (JStr tok) (resolved_allowlist env)])%list)).
Proof.
  intros Hm Hne Hv Ht Hi.
  destruct (reaches_verifier env req tok Hm Hne) as (HA & HB).
  split; intros H; [rewrite (HA H) | rewrite (HB H)];
    now apply refused_issuer with (payload := payload).
Qed.

Lemma wrong_issuer_is_401_witness :
  run (verifyGoogleIdToken_A (Sample.env_of (Val Sample.wrong_issuer)) Demo.token_request)
  = (Val (answers_401 "Invalid issuer"),
     [EvSecret "GOOGLE_ALLOWED_AUDS";
      EvVerifyIdToken (JStr "tok") ["client-A"; "client-B"]]).
Proof.
  refine (proj1 (wrong_issuer_is_401 (Sample.env_of (Val Sample.wrong_issuer))
                   Demo.token_request "tok" Sample.wrong_issuer _ _ _ _ _) _);
    try reflexivity.
  - vm_compute. discriminate.
  - split; reflexivity.
Defined.

(** A payload with a Google issuer whose audience is not in the resolved
    allowlist is answered 401, Invalid audience, by revisions A and B; the
    details give the refused audience and the allowlist, joined by
    commas.  No custom token is minted. *)
Theorem wrong_audience_is_401 (env : Env) (req : Request) (tok : string)
        (payload : JsVal) :
  method req = "POST" ->
  resolved_allowlist env <> [] ->
  verifyIdToken env (JStr tok) (resolved_allowlist env) = Val payload ->
  truthy payload = true ->
  accepted_issuer (get_prop payload "iss") = true ->
  includes (resolved_allowlist env) (js_String (get_prop payload "aud")) = false ->
  (takes_token_A req tok ->
   run (verifyGoogleIdToken_A env req)
   = (Val (invalid_audience (get_prop payload "aud") (resolved_allowlist env)),
      (identity_prefix env tok
         ++ [EvVerifyIdToken (JStr tok) (resolved_allowlist env)])%list))
  /\ (takes_token_B req tok ->
      run (verifyGoogleIdToken_B env req)
      = (Val (invalid_audience (get_prop payload "aud") (resolved_allowlist env)),
         (identity_prefix env tok
            ++ [EvVerifyIdToken (JStr tok) (resolved_allowlist env)])%list)).
Proof.
  intros Hm Hne Hv Ht Hi Ha.
  destruct (reaches_verifier env req tok Hm Hne) as (HA & HB).
  split; intros H; [rewrite (HA H) | rewrite (HB H)];
    now apply refused_audience.
Qed.

Lemma wrong_audience_is_401_witness :
  run (verifyGoogleIdToken_B (Sample.env_of (Val Sample.wrong_audience)) Demo.token_request)
  = (Val (json 401
            (JObj [("error", JStr "Invalid audience");
                   ("details", JStr "aud=client-Z, allowed=client-A,client-B")])),
     [EvSecret "GOOGLE_ALLOWED_AUDS";
      EvVerifyIdToken (JStr "tok") ["client-A"; "client-B"]]).
Proof.
  refine (proj2 (wrong_audience_is_401 (Sample.env_of (Val Sample.wrong_audience))
                   Demo.token_request "tok" Sample.wrong_audience _ _ _ _ _ _) _);
    try reflexivity.
  - vm_compute. discriminate.
  - repeat split; reflexivity.
Defined.

(** A payload with a Google issuer and an allowed audience whose email
    claim is truthy and whose email_verified claim is the boolean false is
    answered 401, Email not verified, by revisions A and B.  No custom
    token is minted. *)
Theorem unverified_email_is_401 (env : Env) (req : Request) (tok : string)
        (payload : JsVal) :
  method req = "POST" ->
  resolved_allowlist env <> [] ->
  verifyIdToken env (JStr tok) (resolved_allowlist env) = Val payload ->
  truthy payload = true ->
  accepted_issuer (get_prop payload "iss") = true ->
  includes (resolved_allowlist env) (js_String (get_prop payload "aud")) = true ->
  truthy (get_prop payload "email") = true ->
  get_prop payload "email_verified" = JBool false ->
  (takes_token_A req tok ->
   run (verifyGoogleIdToken_A env req)
   = (Val (answers_401 "Email not verified"),
      (identity_prefix env tok
         ++ [EvVerifyIdToken (JStr tok) (resolved_allowlist env)])%list))
  /\ (takes_token_B req tok ->
      run (verifyGoogleIdToken_B env req)
      = (Val (answers_401 "Email not verified"),
         (identity_prefix env tok
            ++ [EvVerifyIdToken (JStr tok) (resolved_allowlist env)])%list)).
Proof.
  intros Hm Hne Hv Ht Hi Ha He Hf.
  destruct (reaches_verifier env req tok Hm Hne) as (HA & HB).
  split; intros H; [rewrite (HA H) | rewrite (HB H)];
    now apply refused_email with (payload := payload).
Qed.

Lemma unverified_email_is_401_witness :
  run (verifyGoogleIdToken_A (Sample.env_of (Val Sample.unverified_email))
         Demo.token_request)
  = (Val (answers_401 "Email not verified"),
     [EvSecret "GOOGLE_ALLOWED_AUDS";
      EvVerifyIdToken (JStr "tok") ["client-A"; "client-B"]]).
Proof.
  refine (proj1 (unverified_email_is_401 (Sample.env_of (Val Sample.unverified_email))
                   Demo.token_request "tok" Sample.unverified_email _ _ _ _ _ _ _ _) _);
    try reflexivity.
  - vm_compute. discriminate.
  - split; reflexivity.
Defined.

(* ------------------------------------------------------------------ *)
(** *** Answers with an identity *)

(** A payload that passes every test and has a truthy subject, for which
    the minting succeeds, is answered 200 by revisions A and B with the
    minted token in firebaseCustomToken; the token is minted for the
    verified subject, with the email claim (or the empty string) and the
    provider google, after the one call of the verifier. *)
Theorem minted_token_is_returned (env : Env) (req : Request) (tok : string)
        (payload : JsVal) (s : string) :
  method req = "POST" ->
  resolved_allowlist env <> [] ->
  verifyIdToken env (JStr tok) (resolved_allowlist env) = Val payload ->
  passes (resolved_allowlist env) payload = true ->
  truthy (get_prop payload "sub") = true ->
  createCustomToken env (get_prop payload "sub") (mint_claims payload) = Val s ->
  (takes_token_A req tok ->
   run (verifyGoogleIdToken_A env req)
   = (Val (identity_answer payload (JStr s)),
      (identity_prefix env tok
         ++ [EvVerifyIdToken (JStr tok) (resolved_allowlist env);
             EvCreateCustomToken (get_prop payload "sub") (mint_claims payload)])%list))
  /\ (takes_token_B req tok ->
      run (verifyGoogleIdToken_B env req)
      = (Val (identity_answer payload (JStr s)),
         (identity_prefix env tok
            ++ [EvVerifyIdToken (JStr tok) (resolved_allowlist env);
                EvCreateCustomToken (get_prop payload "sub") (mint_claims payload)])%list)).
Proof.
  intros Hm Hne Hv Hp Hs Hmint.
  destruct (reaches_verifier env req tok Hm Hne) as (HA & HB).
  split; intros H; [rewrite (HA H) | rewrite (HB H)];
    now apply answered_with_token.
Qed.

Lemma minted_token_is_returned_witness :
  run (verifyGoogleIdToken_B (Sample.env_of (Val Sample.verified_email)) Sample.header_request)
  = (Val (identity_answer Sample.verified_email (JStr "custom-token")),
     [EvSecret "GOOGLE_ALLOWED_AUDS";
      EvVerifyIdToken (JStr "tok") ["client-A"; "client-B"];
      EvCreateCustomToken (JStr "subject-1")
        (JObj [("email", JStr "player@example.com"); ("provider", JStr "google")])]).
Proof.
  refine (proj2 (minted_token_is_returned (Sample.env_of (Val Sample.verified_email))
                   Sample.header_request "tok" Sample.verified_email "custom-token"
                   _ _ _ _ _ _) _);
    try reflexivity.
  - vm_compute. discriminate.
  - repeat split; reflexivity.
Defined.

(** A payload that passes every test but has no truthy subject is
    answered 200 with firebaseCustomToken null, and the minting service is
    not called. *)
Theorem no_subject_no_mint (env : Env) (req : Request) (tok : string)
        (payload : JsVal) :
  method req = "POST" ->
  resolved_allowlist env <> [] ->
  verifyIdToken env (JStr tok) (resolved_allowlist env) = Val payload ->
  passes (resolved_allowlist env) payload = true ->
  truthy (get_prop payload "sub") = false ->
  (takes_token_A req tok ->
   run (verifyGoogleIdToken_A env req)
   = (Val (identity_answer payload JNull),
      (identity_prefix env tok
         ++ [EvVerifyIdToken (JStr tok) (resolved_allowlist env)])%list))
  /\ (takes_token_B req tok ->
      run (verifyGoogleIdToken_B env req)
      = (Val (identity_answer payload JNull),
         (identity_prefix env tok
            ++ [EvVerifyIdToken (JStr tok) (resolved_allowlist env)])%list)).
Proof.
  intros Hm Hne Hv Hp Hs.
  destruct (reaches_verifier env req tok Hm Hne) as (HA & HB).
  split; intros H; [rewrite (HA H) | rewrite (HB H)];
    now apply answered_without_subject.
Qed.

Lemma no_subject_no_mint_witness :
  run (verifyGoogleIdToken_A (Sample.env_of (Val Sample.no_subject)) Demo.token_request)
  = (Val (identity_answer Sample.no_subject JNull),
     [EvSecret "GOOGLE_ALLOWED_AUDS";
      EvVerifyIdToken (JStr "tok") ["client-A"; "client-B"]]).
Proof.
  refine (proj1 (no_subject_no_mint (Sample.env_of (Val Sample.no_subject))
                   Demo.token_request "tok" Sample.no_subject _ _ _ _ _) _);
    try reflexivity.
  - vm_compute. discriminate.
  - split; reflexivity.
Defined.

(* ------------------------------------------------------------------ *)
(** *** What a run calls *)

Lemma verify_and_answer_shape (env : Env) (tok : string) (allowed : list string)
      (t : list Event) :
  exists r mt,
    verify_and_answer env tok allowed t
    = (Val r, (t ++ EvVerifyIdToken (JStr tok) allowed :: mt)%list)
    /\ count is_verifier_call mt = 0%nat
    /\ (count is_mint_call mt <= 1)%nat
    /\ (count is_mint_call mt = 1%nat -> verified_success r).
Proof.
  unfold verify_and_answer, try_catch, bind, call, ret.
  destruct (verifyIdToken env (JStr tok) allowed) as [payload | e].
  2:{ eexists. exists []. repeat split; simpl; auto; discriminate. }
  destruct (truthy payload); simpl.
  2:{ eexists. exists []. repeat split; simpl; auto; discriminate. }
  destruct (accepted_issuer _); simpl.
  2:{ eexists. exists []. repeat split; simpl; auto; discriminate. }
  destruct (includes _ _); simpl.
  2:{ eexists. exists []. repeat split; simpl; auto; discriminate. }
  destruct (_ && _); simpl.
  { eexists. exists []. repeat split; simpl; auto; discriminate. }
  unfold mint. destruct (truthy (get_prop payload "sub")).
  2:{ unfold ret. eexists. exists []. repeat split; simpl; auto; discriminate. }
  unfold try_catch, bind, call, ret, console_log, emit.
  destruct (createCustomToken env _ _) as [s | e]; rewrite <- !app_assoc; simpl.
  - eexists. eexists [_]. split; [reflexivity |].
    repeat split; simpl; auto; discriminate.
  - eexists. eexists [_; _]. split; [reflexivity |].
    repeat split; simpl; auto; discriminate.
Qed.

Lemma disciplined_quiet (env : Env) (r : Response) (t : list Event) :
  count is_verifier_call t = 0%nat ->
  count is_mint_call t = 0%nat ->
  disciplined env (Val r, t).
Proof.
  intros Hv Hm. unfold disciplined, trace_of. simpl. rewrite Hv, Hm.
  repeat split; auto.
  - intros tk a Hin. apply (count_none_In _ _ _ Hv) in Hin. discriminate Hin.
  - discriminate.
Qed.

Lemma with_audiences_disciplined (env : Env) (tok : string) :
  disciplined env (with_audiences env tok []).
Proof.
  rewrite with_audiences_run.
  destruct (length (resolved_allowlist env) =? 0)%nat.
  - apply disciplined_quiet; simpl; apply allowlist_reads_quiet.
  - cbv zeta.
    set (t0 := if truthy (decodeJwtPayload env tok) then _ else _).
    assert (Hq : count is_verifier_call t0 = 0%nat /\ count is_mint_call t0 = 0%nat).
    { subst t0. destruct (allowlist_reads_quiet env) as (Hv & Hm).
      destruct (truthy _); simpl; rewrite ?count_app, Hv, Hm; split; reflexivity. }
    destruct Hq as (Hv0 & Hm0).
    destruct (verify_and_answer_shape env tok (resolved_allowlist env) t0)
      as (r & mt & -> & Hv & Hle & Hs).
    unfold disciplined, trace_of, response_of. simpl fst. simpl snd.
    rewrite !count_app, Hv0, Hm0.
    change (EvVerifyIdToken (JStr tok) (resolved_allowlist env) :: mt)
      with ([EvVerifyIdToken (JStr tok) (resolved_allowlist env)] ++ mt)%list.
    rewrite !count_app, Hv. simpl.
    repeat split; auto.
    + intros tk a Hin. apply in_app_or in Hin as [Hin | Hin].
      * apply (count_none_In _ _ _ Hv0) in Hin. discriminate Hin.
      * destruct Hin as [E | Hin]; [now inversion E |].
        apply (count_none_In _ _ _ Hv) in Hin. discriminate Hin.
    + intros H1. exists r. split; [reflexivity | now apply Hs].
Qed.

(** Revisions A and B call the verifier at most once, with the resolved
    allowlist as the accepted audiences, and mint at most one custom
    token, and that only in a run that answers with a verified identity:
    for every environment and every request. *)
Theorem identity_calls_are_disciplined (env : Env) (req : Request) :
  disciplined env (run (verifyGoogleIdToken_A env req))
  /\ disciplined env (run (verifyGoogleIdToken_B env req)).
Proof.
  unfold run, verifyGoogleIdToken_A, verifyGoogleIdToken_B. split.
  - destruct (method req =? "OPTIONS")%string; [now apply disciplined_quiet |].
    destruct (method req =? "POST")%string; simpl; [| now apply disciplined_quiet].
    destruct (truthy (idToken_A req)); simpl; [| now apply disciplined_quiet].
    apply with_audiences_disciplined.
  - destruct (method req =? "OPTIONS")%string; [now apply disciplined_quiet |].
    destruct (method req =? "POST")%string; simpl; [| now apply disciplined_quiet].
    destruct (negb (truthy (idToken_B req)) || negb (typeof_string (idToken_B req)));
      [now apply disciplined_quiet | apply with_audiences_disciplined].
Qed.

(* ------------------------------------------------------------------ *)
(** *** Revision A against revision B *)

(** Revisions A and B run alike, whatever the method, when the body gives
    the token as a non-empty string, and when the body is an object
    without idToken and the header gives one string. *)
Theorem revisions_agree_on_string_tokens (env : Env) (req : Request) :
  (forall s, get_prop (body req) "idToken" = JStr s -> s <> "" ->
             run (verifyGoogleIdToken_A env req) = run (verifyGoogleIdToken_B env req))
  /\ (forall fs h, body req = JObj fs -> assoc "idToken" fs = None ->
                   header req "x-id-token" = JStr h ->
                   run (verifyGoogleIdToken_A env req)
                   = run (verifyGoogleIdToken_B env req)).
Proof.
  split.
  - intros s Hs Hne.
    assert (Hb : truthy (body req) = true).
    { destruct (body req); simpl in Hs; try discriminate Hs. reflexivity. }
    assert (Hn : nonempty s = true) by now apply nonempty_true_iff.
    assert (EA : idToken_A req = JStr s).
    { unfold idToken_A, js_or, js_and. rewrite Hb, Hs. simpl.
      unfold nonempty in Hn. now rewrite Hn. }
    assert (EB : idToken_B req = JStr s).
    { unfold idToken_B, js_coalesce, js_and. now rewrite Hb, Hs. }
    unfold run, verifyGoogleIdToken_A, verifyGoogleIdToken_B. rewrite EA, EB. simpl.
    unfold nonempty in Hn. rewrite Hn. reflexivity.
  - intros fs h Hb Hnone Hh.
    assert (EA : idToken_A req = JStr h).
    { unfold idToken_A, js_or, js_and, get_prop. rewrite Hb, Hnone, Hh. reflexivity. }
    assert (EB : idToken_B req = JStr h).
    { unfold idToken_B, js_coalesce, js_and, get_prop. rewrite Hb, Hnone, Hh.
      reflexivity. }
    unfold run, verifyGoogleIdToken_A, verifyGoogleIdToken_B. rewrite EA, EB. simpl.
    now rewrite orb_false_r.
Qed.

Lemma revisions_agree_on_string_tokens_witness :
  run (verifyGoogleIdToken_A (Sample.env_of (Val Sample.verified_email)) Demo.token_request)
  = run (verifyGoogleIdToken_B (Sample.env_of (Val Sample.verified_email))
           Demo.token_request).
Proof.
  refine (proj1 (revisions_agree_on_string_tokens
                   (Sample.env_of (Val Sample.verified_email)) Demo.token_request)
            "tok" _ _);
    [reflexivity | discriminate].
Defined.

(** The two revisions part on an empty token in the body: revision B
    ([??]) keeps it and answers 400 although the header holds a token;
    revision A ([||]) falls back to the header and goes on with its
    token. *)
Theorem empty_body_token_hides_header (env : Env) (req : Request) (h : string) :
  method req = "POST" ->
  get_prop (body req) "idToken" = JStr "" ->
  header req "x-id-token" = JStr h ->
  h <> "" ->
  run (verifyGoogleIdToken_B env req) = (Val missing_idToken, [])
  /\ run (verifyGoogleIdToken_A env req) = run (with_audiences env h).
Proof.
  intros Hm Hs Hh Hne.
  assert (Hb : truthy (body req) = true).
  { destruct (body req); simpl in Hs; try discriminate Hs. reflexivity. }
  apply nonempty_true_iff in Hne. unfold nonempty in Hne.
  assert (EA : idToken_A req = JStr h).
  { unfold idToken_A, js_or, js_and. now rewrite Hb, Hs, Hh. }
  assert (EB : idToken_B req = JStr "").
  { unfold idToken_B, js_coalesce, js_and. now rewrite Hb, Hs. }
  unfold run. rewrite A_on_post, B_on_post, EA, EB by assumption. simpl.
  rewrite Hne. split; reflexivity.
Qed.

Lemma empty_body_token_hides_header_witness :
  run (verifyGoogleIdToken_B (Sample.env_of (Val Demo.payload_no_email))
         Sample.empty_body_token_request)
  = (Val missing_idToken, [])
  /\ run (verifyGoogleIdToken_A (Sample.env_of (Val Demo.payload_no_email))
            Sample.empty_body_token_request)
     = run (with_audiences (Sample.env_of (Val Demo.payload_no_email)) "tok").
Proof.
  refine (empty_body_token_hides_header (Sample.env_of (Val Demo.payload_no_email))
            Sample.empty_body_token_request "tok" _ _ _ _);
    try reflexivity.
  discriminate.
Defined.

(* ------------------------------------------------------------------ *)
(** *** The unverified decoding of the token *)

Lemma verify_and_answer_frame (env : Env) (tok : string) (allowed : list string)
      (t : list Event) :
  verify_and_answer env tok allowed t
  = (fst (verify_and_answer env tok allowed []),
     (t ++ snd (verify_and_answer env tok allowed []))%list).
Proof.
  unfold verify_and_answer, try_catch, bind, call, ret.
  destruct (verifyIdToken env (JStr tok) allowed) as [payload | e]; [| reflexivity].
  destruct (truthy payload); simpl; [| reflexivity].
  destruct (accepted_issuer _); simpl; [| reflexivity].
  destruct (includes _ _); simpl; [| reflexivity].
  destruct (_ && _); simpl; [reflexivity |].
  unfold mint. destruct (truthy (get_prop payload "sub")); [| reflexivity].
  unfold try_catch, bind, call, ret, console_log, emit.
  destruct (createCustomToken env _ _) as [s | e]; simpl;
    rewrite <- ?app_assoc; reflexivity.
Qed.

Lemma with_audiences_ignores_decoder (env : Env) (b64 : string -> string)
      (parse : string -> Res JsVal) (tok : string) :
  fst (with_audiences (with_decoder env b64 parse) tok [])
  = fst (with_audiences env tok []).
Proof.
  rewrite !with_audiences_run.
  change (resolved_allowlist (with_decoder env b64 parse)) with (resolved_allowlist env).
  destruct (length (resolved_allowlist env) =? 0)%nat; [reflexivity |].
  cbv zeta.
  rewrite (verify_and_answer_frame (with_decoder env b64 parse)).
  rewrite (verify_and_answer_frame env). reflexivity.
Qed.

(** The claims that [decodeJwtPayload] reads from the unverified token
    reach the log only: with any other base64 decoder and JSON parser the
    answers of revisions A and B are the same. *)
Theorem answer_ignores_unverified_claims (env : Env) (b64 : string -> string)
        (parse : string -> Res JsVal) (req : Request) :
  response_of (run (verifyGoogleIdToken_A (with_decoder env b64 parse) req))
  = response_of (run (verifyGoogleIdToken_A env req))
  /\ response_of (run (verifyGoogleIdToken_B (with_decoder env b64 parse) req))
     = response_of (run (verifyGoogleIdToken_B env req)).
Proof.
  unfold response_of, run, verifyGoogleIdToken_A, verifyGoogleIdToken_B. split.
  - destruct (method req =? "OPTIONS")%string; [reflexivity |].
    destruct (method req =? "POST")%string; simpl; [| reflexivity].
    destruct (truthy (idToken_A req)); simpl; [| reflexivity].
    now rewrite with_audiences_ignores_decoder.
  - destruct (method req =? "OPTIONS")%string; [reflexivity |].
    destruct (method req =? "POST")%string; simpl; [| reflexivity].
    destruct (negb (truthy (idToken_B req)) || negb (typeof_string (idToken_B req)));
      [reflexivity |].
    now rewrite with_audiences_ignores_decoder.
Qed.

(* ------------------------------------------------------------------ *)
(** *** The allowlist *)

(** A multi-value secret that is not empty but holds no entry (commas and
    white space only) is not replaced by the single client id: on a POST
    with a token revisions A and B answer 500, no audience configured,
    after reading the multi-value secret alone. *)
Theorem blank_multi_value_shadows_client_id (env : Env) (req : Request) (tok : string) :
  method req = "POST" ->
  nonempty (secret env "GOOGLE_ALLOWED_AUDS") = true ->
  audiences_of (secret env "GOOGLE_ALLOWED_AUDS") = [] ->
  (takes_token_A req tok ->
   run (verifyGoogleIdToken_A env req)
   = (Val no_audience_configured, [EvSecret "GOOGLE_ALLOWED_AUDS"]))
  /\ (takes_token_B req tok ->
      run (verifyGoogleIdToken_B env req)
      = (Val no_audience_configured, [EvSecret "GOOGLE_ALLOWED_AUDS"])).
Proof.
  intros Hm Hn He.
  assert (Hr : resolved_allowlist env = []).
  { unfold resolved_allowlist. cbv zeta. now rewrite Hn. }
  assert (Hreads : allowlist_reads env = [EvSecret "GOOGLE_ALLOWED_AUDS"]).
  { unfold allowlist_reads. now rewrite Hn. }
  split.
  - intros (Ht & _). unfold run. rewrite A_on_post, Ht by assumption. simpl.
    rewrite with_audiences_run, Hr, Hreads. reflexivity.
  - intros (Ht & Hs & _). unfold run. rewrite B_on_post, Ht, Hs by assumption. simpl.
    rewrite with_audiences_run, Hr, Hreads. reflexivity.
Qed.

Lemma blank_multi_value_shadows_client_id_witness :
  run (verifyGoogleIdToken_A Sample.shadowed_env Demo.token_request)
  = (Val no_audience_configured, [EvSecret "GOOGLE_ALLOWED_AUDS"]).
Proof.
  refine (proj1 (blank_multi_value_shadows_client_id Sample.shadowed_env
                   Demo.token_request "tok" _ _ _) _);
    try reflexivity.
  split; reflexivity.
Defined.

Section MoreStringFacts.

Lemma occurs_trim_start (c : ascii) (s : string) :
  occurs c s = false -> occurs c (trim_start s) = false.
Proof.
  induction s as [| d r IH]; simpl; [auto |].
  intros H. apply orb_false_iff in H as (Hd & Hr).
  destruct (is_ws d); [auto | simpl; now rewrite Hd, Hr].
Qed.

Lemma occurs_trim_end (c : ascii) (s : string) :
  occurs c s = false -> occurs c (trim_end s) = false.
Proof.
  induction s as [| d r IH]; simpl; [auto |].
  intros H. apply orb_false_iff in H as (Hd & Hr). specialize (IH Hr).
  destruct (trim_end r) as [| e u].
  - destruct (is_ws d); simpl; [reflexivity | now rewrite Hd].
  - simpl in *. now rewrite Hd, IH.
Qed.

Lemma occurs_trim (c : ascii) (s : string) :
  occurs c s = false -> occurs c (trim s) = false.
Proof. intros H. unfold trim. now apply occurs_trim_end, occurs_trim_start. Qed.

Lemma trim_end_fixed (s : string) : ends_with_ws s = false -> trim_end s = s.
Proof.
  induction s as [| c r IH]; [reflexivity |].
  destruct r as [| d r'].
  - simpl. now intros ->.
  - intros H. change (ends_with_ws (String d r') = false) in H.
    change (trim_end (String c (String d r')))
      with (match trim_end (String d r') with
            | EmptyString => if is_ws c then EmptyString else String c EmptyString
            | r0 => String c r0
            end).
    now rewrite (IH H).
Qed.

Lemma trim_fixed (s : string) :
  starts_with_ws s = false -> ends_with_ws s = false -> trim s = s.
Proof.
  intros Hs He. unfold trim.
  assert (E : trim_start s = s) by (destruct s; simpl in *; [auto | now rewrite Hs]).
  rewrite E. now apply trim_end_fixed.
Qed.

Lemma split_free (sep : ascii) (s : string) :
  occurs sep s = false -> split sep s = [s].
Proof.
  induction s as [| c r IH]; simpl; [reflexivity |].
  intros H. apply orb_false_iff in H as (Hc & Hr).
  now rewrite Hc, (IH Hr).
Qed.

Lemma split_app_sep (sep : ascii) (x rest : string) :
  occurs sep x = false ->
  split sep (x ++ String sep rest) = x :: split sep rest.
Proof.
  induction x as [| c r IH]; simpl.
  - intros _. now rewrite Ascii.eqb_refl.
  - intros H. apply orb_false_iff in H as (Hc & Hr).
    now rewrite Hc, (IH Hr).
Qed.

(** Splitting what was joined gives the pieces back, when no piece holds
    the separator. *)
Lemma split_join (sep : ascii) (l : list string) :
  Forall (fun p => occurs sep p = false) l ->
  l <> [] ->
  split sep (join (String sep "") l) = l.
Proof.
  induction l as [| x l IH]; [contradiction |].
  intros HF _. inversion HF as [| ? ? Hx Hl]; subst.
  destruct l as [| y l'].
  - simpl. now apply split_free.
  - change (join (String sep "") (x :: y :: l'))
      with (x ++ String sep (join (String sep "") (y :: l'))).
    rewrite split_app_sep by assumption.
    rewrite IH; [reflexivity | assumption | discriminate].
Qed.

Lemma audiences_of_clean (src a : string) :
  In a (audiences_of src) -> clean_entry a = true.
Proof.
  intros H. apply audiences_of_entries in H as (Hne & piece & Hin & ->).
  destruct (trim_decompose piece) as (l & r & _ & _ & _ & Hs & He).
  unfold clean_entry. rewrite Hs, He.
  apply nonempty_true_iff in Hne. rewrite Hne. simpl.
  apply negb_true_iff, occurs_trim.
  pose proof (split_pieces_free "," src) as HF.
  rewrite Forall_forall in HF. now apply HF.
Qed.

Lemma clean_entry_unfold (a : string) :
  clean_entry a = true ->
  nonempty a = true /\ starts_with_ws a = false /\ ends_with_ws a = false
  /\ occurs "," a = false.
Proof.
  unfold clean_entry. intros H.
  apply andb_prop in H as (H & Ho). apply andb_prop in H as (H & He).
  apply andb_prop in H as (Hn & Hs).
  apply negb_true_iff in Ho, He, Hs. auto.
Qed.

Lemma length_append (s s' : string) :
  String.length (s ++ s') = (String.length s + String.length s')%nat.
Proof. induction s as [| c r IH]; simpl; [reflexivity | now rewrite IH]. Qed.

Lemma occurs_append (c : ascii) (s s' : string) :
  occurs c (s ++ s') = occurs c s || occurs c s'.
Proof.
  induction s as [| d r IH]; simpl; [reflexivity |]. now rewrite IH, orb_assoc.
Qed.

Lemma replace_char_length (a b : ascii) (s : string) :
  String.length (replace_char a b s) = String.length s.
Proof. induction s as [| c r IH]; simpl; [reflexivity | now rewrite IH]. Qed.

Lemma replace_char_removes (a b : ascii) (s : string) :
  a <> b -> occurs a (replace_char a b s) = false.
Proof.
  intros Hab. induction s as [| c r IH]; simpl; [reflexivity |].
  rewrite IH, orb_false_r.
  destruct (Ascii.eqb_spec c a) as [-> | Hca].
  - apply Ascii.eqb_neq. congruence.
  - now apply Ascii.eqb_neq.
Qed.

Lemma replace_char_keeps_out (a b c : ascii) (s : string) :
  c <> b -> occurs c s = false -> occurs c (replace_char a b s) = false.
Proof.
  intros Hcb. induction s as [| d r IH]; simpl; [reflexivity |].
  intros H. apply orb_false_iff in H as (Hd & Hr). rewrite (IH Hr), orb_false_r.
  destruct (Ascii.eqb d a); [| assumption].
  apply Ascii.eqb_neq. congruence.
Qed.

End MoreStringFacts.

(** Every entry of the allowlist that revisions A and B resolve is not
    empty, has no white space at either end and holds no comma. *)
Theorem allowlist_entries_are_clean (env : Env) (a : string) :
  In a (resolved_allowlist env) -> clean_entry a = true.
Proof. unfold resolved_allowlist. cbv zeta. apply audiences_of_clean. Qed.

Lemma allowlist_entries_are_clean_witness : clean_entry "client-B" = true.
Proof.
  refine (allowlist_entries_are_clean (Sample.env_of (Val Demo.payload_no_email))
            "client-B" _).
  vm_compute. right. left. reflexivity.
Defined.

(** The allowlist survives its own printing: the entries joined by commas,
    as the Invalid audience details print them, resolve to the same
    entries. *)
Theorem allowlist_round_trip (src : string) :
  audiences_of (join "," (audiences_of src)) = audiences_of src.
Proof.
  assert (Hclean : forall a, In a (audiences_of src) -> clean_entry a = true)
    by (intros a; apply audiences_of_clean).
  destruct (audiences_of src) as [| x l] eqn:E; [reflexivity |].
  unfold audiences_of at 1.
  rewrite split_join; [| | discriminate].
  - assert (Hmap : map trim (x :: l) = x :: l).
    { rewrite <- (map_id (x :: l)) at 2. apply map_ext_in. intros a Ha.
      apply Hclean, clean_entry_unfold in Ha as (_ & Hs & He & _).
      now apply trim_fixed. }
    rewrite Hmap. apply forallb_filter_id. apply forallb_forall. intros a Ha.
    now apply Hclean, clean_entry_unfold in Ha as (Hn & _).
  - apply Forall_forall. intros a Ha.
    now apply Hclean, clean_entry_unfold in Ha as (_ & _ & _ & Ho).
Qed.

(* ------------------------------------------------------------------ *)
(** *** decodeJwtPayload *)

(** A token without a dot has no second segment: [decodeJwtPayload]
    gives null without decoding anything, and revisions A and B log no
    debugging line for it. *)
Theorem undotted_token_decodes_to_null (env : Env) (tok : string) :
  occurs "." tok = false ->
  decodeJwtPayload env tok = JNull /\ debug_log env tok = [].
Proof.
  intros H.
  assert (E : decodeJwtPayload env tok = JNull).
  { unfold decodeJwtPayload. now rewrite (split_free "." tok H). }
  split; [exact E |]. unfold debug_log. cbv zeta. now rewrite E.
Qed.

Lemma undotted_token_decodes_to_null_witness :
  decodeJwtPayload (Sample.env_of (Val Demo.payload_no_email)) "tok" = JNull
  /\ debug_log (Sample.env_of (Val Demo.payload_no_email)) "tok" = [].
Proof.
  refine (undotted_token_decodes_to_null (Sample.env_of (Val Demo.payload_no_email))
            "tok" _).
  reflexivity.
Defined.

(** For a token with a non-empty second segment, [decodeJwtPayload] hands
    the base64 decoder a text whose length is a multiple of four and that
    holds neither - nor _ (the base64url characters are replaced and the
    padding is added); the result is what the JSON parser makes of the
    decoded text, or null when the parser throws. *)
Theorem decoder_input_is_padded_base64 (env : Env) (tok seg : string) :
  nth_error (split "." tok) 1 = Some seg ->
  seg <> "" ->
  decodeJwtPayload env tok
  = match JSON_parse env (base64_decode env (jwt_base64 seg)) with
    | Val v => v
    | Exn _ => JNull
    end
  /\ (String.length (jwt_base64 seg) mod 4 = 0)%nat
  /\ occurs "-" (jwt_base64 seg) = false
  /\ occurs "_" (jwt_base64 seg) = false.
Proof.
  intros Hseg Hne. apply nonempty_true_iff in Hne.
  split; [unfold decodeJwtPayload; now rewrite Hseg, Hne |].
  unfold jwt_base64. cbv zeta.
  set (b64 := replace_char "_" "/" (replace_char "-" "+" seg)).
  split; [| split].
  - rewrite length_append.
    pose proof (Nat.div_mod_eq (String.length b64 + 3) 4) as Hd.
    pose proof (Nat.mod_upper_bound (String.length b64 + 3) 4 ltac:(discriminate)) as Hb.
    remember ((String.length b64 + 3) mod 4)%nat as k eqn:Ek.
    assert (Hk : String.length (slice_from k "===") = (3 - k)%nat).
    { clear. destruct k as [| [| [| [| k']]]]; reflexivity. }
    rewrite Hk.
    replace (String.length b64 + (3 - k))%nat
      with (((String.length b64 + 3) / 4) * 4)%nat by lia.
    apply Nat.Div0.mod_mul.
  - rewrite occurs_append. apply orb_false_iff. split.
    + subst b64. apply replace_char_keeps_out; [discriminate |].
      apply replace_char_removes. discriminate.
    + destruct (_ mod 4)%nat as [| [| [| [| k']]]]; reflexivity.
  - rewrite occurs_append. apply orb_false_iff. split.
    + subst b64. apply replace_char_removes. discriminate.
    + destruct (_ mod 4)%nat as [| [| [| [| k']]]]; reflexivity.
Qed.

Lemma decoder_input_is_padded_base64_witness :
  (String.length (jwt_base64 "eyJ-X_0") mod 4 = 0)%nat
  /\ occurs "-" (jwt_base64 "eyJ-X_0") = false
  /\ occurs "_" (jwt_base64 "eyJ-X_0") = false.
Proof.
  refine (proj2 (decoder_input_is_padded_base64 (Sample.env_of (Val Demo.payload_no_email))
                   "head.eyJ-X_0.sig" "eyJ-X_0" _ _));
    [reflexivity | discriminate].
Defined.

(* ================================================================== *)
(** ** The purchase handler: further properties *)
(* ================================================================== *)






Section PurchaseGate.

Variable env : Env.
Variable req : Request.

(** On a POST without package name or without purchase token, revision B
    answers 400, Missing fields, whatever the product and subscription
    ids; nothing is read and nothing is called. *)
Theorem missing_package_or_token_is_400 :
  method req = "POST" ->
  truthy (purchase_field req "packageName") = false
  \/ truthy (purchase_field req "purchaseToken") = false ->
  run (verifyPurchase_B env req) = (Val missing_fields, []).
Proof.
  intros Hm H. unfold run, verifyPurchase_B. rewrite Hm. simpl.
  destruct H as [-> | ->]; simpl; [reflexivity |].
  now rewrite orb_true_r.
Qed.

(** A complete query is answered 500, Missing GP_SERVICE_ACCOUNT_JSON
    secret, when the secret is empty; the billing service is not
    called. *)
Theorem missing_secret_is_500 :
  method req = "POST" ->
  truthy (purchase_field req "packageName") = true ->
  truthy (purchase_field req "purchaseToken") = true ->
  truthy (purchase_field req "productId") = true
  \/ truthy (purchase_field req "subscriptionId") = true ->
  secret env "GP_SERVICE_ACCOUNT_JSON" = "" ->
  run (verifyPurchase_B env req) = (Val missing_secret, [EvSecret "GP_SERVICE_ACCOUNT_JSON"]).
Proof.
  intros Hm Hpkg Htok Hid Hs. unfold run, verifyPurchase_B. rewrite Hm. simpl.
  rewrite Hpkg, Htok. simpl.
  assert (E : negb (truthy (purchase_field req "productId"))
              && negb (truthy (purchase_field req "subscriptionId")) = false).
  { destruct Hid as [-> | ->]; [reflexivity | now rewrite andb_false_r]. }
  rewrite E. unfold bind, secret_value, call. now rewrite Hs.
Qed.

Lemma complete_query_reads_secret :
  method req = "POST" ->
  truthy (purchase_field req "packageName") = true ->
  truthy (purchase_field req "purchaseToken") = true ->
  truthy (purchase_field req "productId") = true
  \/ truthy (purchase_field req "subscriptionId") = true ->
  nonempty (secret env "GP_SERVICE_ACCOUNT_JSON") = true ->
  run (verifyPurchase_B env req)
  = try_catch
      (auth <- getAuthFromServiceAccountJson env (secret env "GP_SERVICE_ACCOUNT_JSON") ;;
       if truthy (purchase_field req "productId") then
         inapp_branch env auth (purchase_field req "packageName")
           (purchase_field req "productId") (purchase_field req "purchaseToken")
           (purchase_field req "acknowledge") (purchase_field req "developerPayload")
       else
         subs_branch env auth (purchase_field req "packageName")
           (purchase_field req "subscriptionId") (purchase_field req "purchaseToken")
           (purchase_field req "acknowledge") (purchase_field req "developerPayload"))
      (fun e =>
         console_log "error" [JStr "verifyPurchase error:"; JStr (message_or_String e)] ;;;
         ret (json 500 (JObj [("error", JStr "verifyPurchase failed");
                              ("details", JStr (message_or_String e))])))
      [EvSecret "GP_SERVICE_ACCOUNT_JSON"].
Proof.
  intros Hm Hpkg Htok Hid Hs. unfold run, verifyPurchase_B. rewrite Hm. simpl.
  rewrite Hpkg, Htok. simpl.
  assert (E : negb (truthy (purchase_field req "productId"))
              && negb (truthy (purchase_field req "subscriptionId")) = false).
  { destruct Hid as [-> | ->]; [reflexivity | now rewrite andb_false_r]. }
  rewrite E. unfold bind at 1, secret_value, call. now rewrite Hs.
Qed.

(** A secret that is not JSON, or that parses to null, is answered 500,
    verifyPurchase failed, with the message of the parser, respectively of
    the failed property read; the failure is logged and the billing
    service is not called. *)
Theorem unusable_secret_is_500 :
  method req = "POST" ->
  truthy (purchase_field req "packageName") = true ->
  truthy (purchase_field req "purchaseToken") = true ->
  truthy (purchase_field req "productId") = true
  \/ truthy (purchase_field req "subscriptionId") = true ->
  nonempty (secret env "GP_SERVICE_ACCOUNT_JSON") = true ->
  (forall e, JSON_parse env (secret env "GP_SERVICE_ACCOUNT_JSON") = Exn e ->
             run (verifyPurchase_B env req)
             = (Val (purchase_failed e),
                [EvSecret "GP_SERVICE_ACCOUNT_JSON"; purchase_failed_log e]))
  /\ (JSON_parse env (secret env "GP_SERVICE_ACCOUNT_JSON") = Val JNull ->
      run (verifyPurchase_B env req)
      = (Val (purchase_failed (read_error JNull "client_email")),
         [EvSecret "GP_SERVICE_ACCOUNT_JSON";
          purchase_failed_log (read_error JNull "client_email")])).
Proof.
  intros Hm Hpkg Htok Hid Hs.
  rewrite (complete_query_reads_secret Hm Hpkg Htok Hid Hs).
  unfold try_catch, bind at 1, getAuthFromServiceAccountJson, bind at 1, of_res.
  split.
  - intros e ->. reflexivity.
  - intros ->. reflexivity.
Qed.

End PurchaseGate.

Lemma missing_package_or_token_is_400_witness :
  run (verifyPurchase_B
         (Demo.billing_env (Val (Demo.product_data 0 0)) (Exn Demo.rejected))
         (Demo.post (JObj [("productId", JStr "p1"); ("purchaseToken", JStr "t1")])))
  = (Val missing_fields, []).
Proof.
  refine (missing_package_or_token_is_400
            (Demo.billing_env (Val (Demo.product_data 0 0)) (Exn Demo.rejected))
            (Demo.post (JObj [("productId", JStr "p1"); ("purchaseToken", JStr "t1")]))
            _ _);
    [reflexivity | left; reflexivity].
Defined.

Lemma missing_secret_is_500_witness :
  run (verifyPurchase_B
         (Sample.billing_with "" (Val Demo.service_account)
            (Val (Demo.product_data 0 0)) (Exn Demo.rejected) (Val tt))
         (Demo.inapp_request false))
  = (Val missing_secret, [EvSecret "GP_SERVICE_ACCOUNT_JSON"]).
Proof.
  refine (missing_secret_is_500
            (Sample.billing_with "" (Val Demo.service_account)
               (Val (Demo.product_data 0 0)) (Exn Demo.rejected) (Val tt))
            (Demo.inapp_request false) _ _ _ _ _);
    try reflexivity.
  left. reflexivity.
Defined.

Lemma unusable_secret_is_500_witness :
  run (verifyPurchase_B
         (Sample.billing_with "not json" (Exn Sample.syntax_error)
            (Val (Demo.product_data 0 0)) (Exn Demo.rejected) (Val tt))
         (Demo.inapp_request false))
  = (Val (purchase_failed Sample.syntax_error),
     [EvSecret "GP_SERVICE_ACCOUNT_JSON"; purchase_failed_log Sample.syntax_error]).
Proof.
  refine (proj1 (unusable_secret_is_500
                   (Sample.billing_with "not json" (Exn Sample.syntax_error)
                      (Val (Demo.product_data 0 0)) (Exn Demo.rejected) (Val tt))
                   (Demo.inapp_request false) _ _ _ _ _)
            Sample.syntax_error _);
    try reflexivity.
  left. reflexivity.
Defined.

Section PurchaseBranches.

Variable env : Env.
Variable req : Request.
Variable creds : JsVal.

(** A failure of the fetch is answered 500, verifyPurchase failed, with
    the message of the failure, on the in-app branch and on the
    subscription branch alike; it is logged, the fetch is not repeated and
    nothing is acknowledged. *)
Theorem fetch_failure_is_500 (e : JsError) :
  reaches_billing env req creds ->
  (truthy (purchase_field req "productId") = true ->
   products_get env (auth_of creds) (products_params req) = Exn e ->
   run (verifyPurchase_B env req)
   = (Val (purchase_failed e),
      [EvSecret "GP_SERVICE_ACCOUNT_JSON"; EvProductsGet (products_params req);
       purchase_failed_log e]))
  /\ (truthy (purchase_field req "productId") = false ->
      truthy (purchase_field req "subscriptionId") = true ->
      subscriptions_get env (auth_of creds) (subscriptions_params req) = Exn e ->
      run (verifyPurchase_B env req)
      = (Val (purchase_failed e),
         [EvSecret "GP_SERVICE_ACCOUNT_JSON";
          EvSubscriptionsGet (subscriptions_params req);
          purchase_failed_log e])).
Proof.
  intros (Hm & Hpkg & Htok & Hsec & Hparse & Hcreds). split.
  - intros Hpid Hget. unfold products_params in Hget.
    rewrite (complete_query_reads_secret env req Hm Hpkg Htok (or_introl Hpid) Hsec).
    unfold try_catch, bind at 1, getAuthFromServiceAccountJson, bind at 1, of_res.
    rewrite Hparse, Hcreds, Hpid. unfold ret at 1.
    unfold inapp_branch, bind at 1, call. rewrite Hget. reflexivity.
  - intros Hpid Hsid Hget. unfold subscriptions_params in Hget.
    rewrite (complete_query_reads_secret env req Hm Hpkg Htok (or_intror Hsid) Hsec).
    unfold try_catch, bind at 1, getAuthFromServiceAccountJson, bind at 1, of_res.
    rewrite Hparse, Hcreds, Hpid. unfold ret at 1.
    unfold subs_branch. cbv zeta. unfold bind at 1, call. rewrite Hget. reflexivity.
Qed.

(** A failure of the acknowledge call is swallowed: the answer is the one
    of the fetch alone, on both branches, and the failure leaves a warning
    in the log. *)
Theorem acknowledge_failure_is_swallowed (data : JsVal) (e : JsError) :
  (inapp_fetched env req creds data ->
   inapp_ack_guard req data = true ->
   products_acknowledge env (auth_of creds) (inapp_ack_params req) = Exn e ->
   run (verifyPurchase_B env req)
   = (Val (inapp_answer req data),
      [EvSecret "GP_SERVICE_ACCOUNT_JSON"; EvProductsGet (products_params req);
       EvProductsAcknowledge (inapp_ack_params req);
       EvLog "warn" [JStr "acknowledge error:"; JStr (message_or_String e)]]))
  /\ (subs_fetched env req creds data ->
      subs_ack_guard req data = true ->
      subscriptions_acknowledge env (auth_of creds) (subs_ack_params req) = Exn e ->
      run (verifyPurchase_B env req)
      = (Val (subs_answer env req data),
         [EvSecret "GP_SERVICE_ACCOUNT_JSON";
          EvSubscriptionsGet (subscriptions_params req);
          EvSubscriptionsAcknowledge (subs_ack_params req);
          EvLog "warn" [JStr "subscription acknowledge error:";
                        JStr (message_or_String e)]])).
Proof.
  split; intros Hf Hg Hack.
  - rewrite (inapp_run env req creds data Hf). unfold inapp_trace.
    now rewrite Hg, Hack.
  - rewrite (subs_run env req creds data Hf). unfold subs_trace.
    now rewrite Hg, Hack.
Qed.

(** On the in-app branch the answer is 200 with type inapp; its ok field
    is true exactly when purchaseState is the number 0, and the states of
    the fetched purchase are passed on as fetched.  One product is
    fetched and no subscription endpoint is called. *)
Theorem inapp_answer_reports_purchase_state (data : JsVal) :
  inapp_fetched env req creds data ->
  exists r,
    response_of (run (verifyPurchase_B env req)) = Some r
    /\ status r = 200
    /\ answer_field r "type" = Some (JStr "inapp")
    /\ answer_field r "ok" = Some (JBool (seq_num (get_prop data "purchaseState") 0))
    /\ answer_field r "purchaseState" = Some (get_prop data "purchaseState")
    /\ answer_field r "acknowledgementState" = Some (get_prop data "acknowledgementState")
    /\ answer_field r "productId" = Some (purchase_field req "productId")
    /\ count is_fetch (trace_of (run (verifyPurchase_B env req))) = 1%nat
    /\ count is_subs_call (trace_of (run (verifyPurchase_B env req))) = 0%nat.
Proof.
  intros Hf. rewrite (inapp_run env req creds data Hf).
  exists (inapp_answer req data). unfold trace_of, inapp_trace. simpl snd.
  repeat split; try reflexivity;
    unfold count; destruct (inapp_ack_guard req data); simpl;
    rewrite ?ack_warning_no_ack by reflexivity; reflexivity.
Qed.

End PurchaseBranches.

Lemma fetch_failure_is_500_witness :
  run (verifyPurchase_B
         (Sample.billing_with "service-account" (Val Demo.service_account)
            (Exn Sample.backend_error) (Exn Sample.backend_error) (Val tt))
         (Demo.inapp_request true))
  = (Val (purchase_failed Sample.backend_error),
     [EvSecret "GP_SERVICE_ACCOUNT_JSON";
      EvProductsGet (products_params (Demo.inapp_request true));
      purchase_failed_log Sample.backend_error]).
Proof.
  refine (proj1 (fetch_failure_is_500
                   (Sample.billing_with "service-account" (Val Demo.service_account)
                      (Exn Sample.backend_error) (Exn Sample.backend_error) (Val tt))
                   (Demo.inapp_request true) Demo.service_account
                   Sample.backend_error _) _ _);
    try reflexivity.
  repeat split; reflexivity.
Defined.

Lemma acknowledge_failure_is_swallowed_witness :
  run (verifyPurchase_B
         (Sample.billing_with "service-account" (Val Demo.service_account)
            (Val (Demo.product_data 0 0)) (Exn Sample.backend_error)
            (Exn Sample.already_acknowledged))
         (Demo.inapp_request true))
  = (Val (inapp_answer (Demo.inapp_request true) (Demo.product_data 0 0)),
     [EvSecret "GP_SERVICE_ACCOUNT_JSON";
      EvProductsGet (products_params (Demo.inapp_request true));
      EvProductsAcknowledge (inapp_ack_params (Demo.inapp_request true));
      EvLog "warn" [JStr "acknowledge error:";
                    JStr (message_or_String Sample.already_acknowledged)]]).
Proof.
  refine (proj1 (acknowledge_failure_is_swallowed
                   (Sample.billing_with "service-account" (Val Demo.service_account)
                      (Val (Demo.product_data 0 0)) (Exn Sample.backend_error)
                      (Exn Sample.already_acknowledged))
                   (Demo.inapp_request true) Demo.service_account
                   (Demo.product_data 0 0) Sample.already_acknowledged) _ _ _);
    try reflexivity.
  repeat split; reflexivity.
Defined.

Lemma inapp_answer_reports_purchase_state_witness :
  exists r,
    response_of
      (run (verifyPurchase_B
              (Demo.billing_env (Val (Demo.product_data 2 0)) (Exn Demo.rejected))
              (Demo.inapp_request true))) = Some r
    /\ status r = 200
    /\ answer_field r "type" = Some (JStr "inapp")
    /\ answer_field r "ok" = Some (JBool false)
    /\ answer_field r "purchaseState" = Some (JNum 2)
    /\ answer_field r "acknowledgementState" = Some (JNum 0)
    /\ answer_field r "productId" = Some (JStr "p1")
    /\ count is_fetch
         (trace_of
            (run (verifyPurchase_B
                    (Demo.billing_env (Val (Demo.product_data 2 0)) (Exn Demo.rejected))
                    (Demo.inapp_request true)))) = 1%nat
    /\ count is_subs_call
         (trace_of
            (run (verifyPurchase_B
                    (Demo.billing_env (Val (Demo.product_data 2 0)) (Exn Demo.rejected))
                    (Demo.inapp_request true)))) = 0%nat.
Proof.
  refine (inapp_answer_reports_purchase_state
            (Demo.billing_env (Val (Demo.product_data 2 0)) (Exn Demo.rejected))
            (Demo.inapp_request true) Demo.service_account (Demo.product_data 2 0) _).
  repeat split; reflexivity.
Defined.

(** With a product id the subscription id plays no part: two queries that
    differ in the subscription id only run alike, calls and answer. *)
Theorem subscription_id_is_ignored_with_product_id (env : Env) (req req' : Request) :
  method req = method req' ->
  (forall k, k <> "subscriptionId" -> purchase_field req k = purchase_field req' k) ->
  truthy (purchase_field req "productId") = true ->
  run (verifyPurchase_B env req) = run (verifyPurchase_B env req').
Proof.
  intros Hm H Hpid.
  assert (Hpid' : truthy (purchase_field req' "productId") = true)
    by (rewrite <- H; [assumption | discriminate]).
  unfold run, verifyPurchase_B. rewrite <- Hm.
  rewrite <- (H "packageName"), <- (H "purchaseToken"), <- (H "acknowledge"),
    <- (H "developerPayload") by discriminate.
  rewrite Hpid, Hpid'. rewrite <- (H "productId") by discriminate.
  reflexivity.
Qed.

Lemma subscription_id_is_ignored_with_product_id_witness :
  run (verifyPurchase_B
         (Demo.billing_env (Val (Demo.product_data 0 0)) (Exn Demo.rejected))
         Demo.both_request)
  = run (verifyPurchase_B
           (Demo.billing_env (Val (Demo.product_data 0 0)) (Exn Demo.rejected))
           Sample.product_only_request).
Proof.
  refine (subscription_id_is_ignored_with_product_id
            (Demo.billing_env (Val (Demo.product_data 0 0)) (Exn Demo.rejected))
            Demo.both_request Sample.product_only_request _ _ _);
    try reflexivity.
  intros k Hk.
  cbn [purchase_field js_or truthy body get_prop assoc Demo.both_request
       Sample.product_only_request Demo.post].
  destruct ("packageName" =? k)%string; [reflexivity |].
  destruct ("productId" =? k)%string; [reflexivity |].
  destruct (String.eqb_spec "subscriptionId" k) as [E | _]; [congruence |].
  reflexivity.
Defined.

(* ================================================================== *)
(** ** Revision C: further properties *)
(* ================================================================== *)

(** The identity handler of revision C answers 200 with the subject as
    userId for every truthy payload that the verifier returns, after one
    call of the verifier with the three client ids of the module, whatever
    the method, the headers and the issuer, audience and email claims of
    the payload; without a truthy idToken in the body it answers 400 and
    calls nothing. *)
Theorem short_revision_trusts_the_verifier (env : Env) (req : Request) :
  (forall payload,
      truthy (get_prop_opt (body req) "idToken") = true ->
      verifyIdToken env (get_prop_opt (body req) "idToken") ALLOWED_AUDIENCES = Val payload ->
      truthy payload = true ->
      run (verifyGoogleIdToken_C env req)
      = (Val (short_identity_answer payload),
         [EvVerifyIdToken (get_prop_opt (body req) "idToken") ALLOWED_AUDIENCES]))
  /\ (truthy (get_prop_opt (body req) "idToken") = false ->
      run (verifyGoogleIdToken_C env req)
      = (Val (json 400 (JObj [("ok", JBool false); ("error", JStr "Missing idToken")])),
         [])).
Proof.
  unfold run, verifyGoogleIdToken_C, try_catch, bind, call, ret. split.
  - intros payload Ht Hv Hp. cbv zeta. now rewrite Ht, Hv, Hp.
  - intros Ht. cbv zeta. now rewrite Ht.
Qed.

Lemma short_revision_trusts_the_verifier_witness :
  run (verifyGoogleIdToken_C (Sample.env_of (Val Sample.wrong_issuer))
         (mkRequest "GET" (JObj [("idToken", JStr "tok")]) []))
  = (Val (short_identity_answer Sample.wrong_issuer),
     [EvVerifyIdToken (JStr "tok") ALLOWED_AUDIENCES]).
Proof.
  refine (proj1 (short_revision_trusts_the_verifier
                   (Sample.env_of (Val Sample.wrong_issuer))
                   (mkRequest "GET" (JObj [("idToken", JStr "tok")]) []))
            Sample.wrong_issuer _ _ _);
    reflexivity.
Defined.

(** The purchase handler of revision C needs a product id: a complete
    query is answered 200 with status ok and the fetched purchase as it
    is, whatever its purchaseState, after one fetch and no acknowledge
    call; a query without product id is answered 400, Missing parameters,
    also when it names a subscription. *)
Theorem short_purchase_passes_fetch_on (env : Env) (req : Request) :
  (forall serviceAccount data,
      truthy (short_field req "packageName") = true ->
      truthy (short_field req "productId") = true ->
      truthy (short_field req "purchaseToken") = true ->
      nonempty (secret env "GP_SERVICE_ACCOUNT_JSON") = true ->
      JSON_parse env (secret env "GP_SERVICE_ACCOUNT_JSON") = Val serviceAccount ->
      products_get env (short_auth serviceAccount) (short_params req) = Val data ->
      run (verifyPurchase_C env req)
      = (Val (json 200 (JObj [("status", JStr "ok"); ("purchase", data)])),
         [EvSecret "GP_SERVICE_ACCOUNT_JSON"; EvProductsGet (short_params req)]))
  /\ (truthy (short_field req "productId") = false ->
      run (verifyPurchase_C env req)
      = (Val (json 400 (JObj [("error", JStr "Missing parameters")])), [])).
Proof.
  unfold run, verifyPurchase_C, short_auth, short_params, short_field. split.
  - intros sa data Hpkg Hpid Htok Hs Hparse Hget.
    unfold try_catch, bind at 1. cbv zeta. rewrite Hpkg, Hpid, Htok. simpl.
    unfold bind at 1, secret_value, call. rewrite Hs. simpl.
    unfold bind at 1, of_res. rewrite Hparse.
    unfold bind, call, ret. now rewrite Hget.
  - intros Hpid. unfold try_catch. cbv zeta. rewrite Hpid. simpl.
    now rewrite orb_true_r.
Qed.

Lemma short_purchase_passes_fetch_on_witness :
  run (verifyPurchase_C
         (Demo.billing_env (Val (Demo.product_data 1 0)) (Exn Demo.rejected))
         (Demo.inapp_request true))
  = (Val (json 200 (JObj [("status", JStr "ok"); ("purchase", Demo.product_data 1 0)])),
     [EvSecret "GP_SERVICE_ACCOUNT_JSON";
      EvProductsGet (short_params (Demo.inapp_request true))]).
Proof.
  refine (proj1 (short_purchase_passes_fetch_on
                   (Demo.billing_env (Val (Demo.product_data 1 0)) (Exn Demo.rejected))
                   (Demo.inapp_request true))
            Demo.service_account (Demo.product_data 1 0) _ _ _ _ _ _);
    reflexivity.
Defined.
